(** * Rollout engine of [main.py]: reconstruction and forecast modes

    A shallow embedding of the part of [main] that runs once training has
    finished (lines 148-226 of [src/main.py]): the choice of mode from the
    dataset name and the pair id, the reconstruction loop that steps through
    the ground-truth history, the single-call forecast, and the hand-over of
    the result to [torch.save].

    Python integers are [Z].  Arrays (numpy arrays and torch tensors alike)
    carry their shape and an indexing function; [.T], [squeeze], slicing and
    concatenation act on both, with the shape checks numpy and torch make.
    The trained network and the data module are collaborators living outside
    the file: they are variables of the sections below. *)

From Stdlib Require Import ZArith List String Bool Lia PeanoNat.
Import ListNotations.
Local Open Scope Z_scope.

(* ================================================================== *)
(** * Python outcomes *)
(* ================================================================== *)

(** The exceptions the modelled statements can raise. *)
Inductive exn : Type :=
| IndexError      (* subscript out of range, too many indices *)
| ValueError      (* np.concatenate on arrays that do not fit *)
| RuntimeError    (* torch.cat on tensors that do not fit *)
| TypeError.      (* subscripting None *)

(** A statement returns, raises, or is still running when the budget of
    loop iterations is used up. *)
Inductive outcome (A : Type) : Type :=
| Ret (a : A)
| Raise (e : exn)
| OutOfFuel.

Arguments Ret {A} a.
Arguments Raise {A} e.
Arguments OutOfFuel {A}.

(* ================================================================== *)
(** * Python slices *)
(* ================================================================== *)

(** One bound of [a[start:stop]] on a sequence of [len] items: a negative
    bound counts from the end, and every bound is clipped to [0, len]. *)
Definition clamp_index (len : nat) (i : Z) : nat :=
  Z.to_nat (if i <? 0 then Z.max 0 (i + Z.of_nat len)
            else Z.min i (Z.of_nat len)).

(** [slice_indices len start stop] is the offset of the first item taken and
    the number of items taken; a missing bound is [None]. *)
Definition slice_indices (len : nat) (start stop : option Z) : nat * nat :=
  let lo := match start with Some i => clamp_index len i | None => 0%nat end in
  let hi := match stop with Some i => clamp_index len i | None => len end in
  (lo, (hi - lo)%nat).

(** [l[i]] for a constant, non-negative [i]. *)
Definition subscript {A : Type} (l : list A) (i : nat) : outcome A :=
  match nth_error l i with
  | Some x => Ret x
  | None => Raise IndexError
  end.

(* ================================================================== *)
(** * Arrays *)
(* ================================================================== *)

Section Arrays.

(** The scalar type of the signal (floating point in the program; no
    arithmetic is done on it here). *)
Variable R : Type.

Record ndarray : Type := mkarray {
  shape : list nat;
  item : list nat -> R
}.

Definition ndim (a : ndarray) : nat := List.length (shape a).

(** [a.shape[k]] *)
Definition shape_at (a : ndarray) (k : nat) : outcome nat :=
  subscript (shape a) k.

(** [a.T]: the axes in reverse order.  (On a tensor that is not a matrix
    torch warns that this use is deprecated, and reverses the axes all the
    same.) *)
Definition T (a : ndarray) : ndarray :=
  mkarray (rev (shape a)) (fun idx => item a (rev idx)).

(** The index into the array before [squeeze] of an index after it: a
    zero is put back at every axis of size one. *)
Fixpoint unsqueeze_index (shp idx : list nat) : list nat :=
  match shp with
  | [] => []
  | d :: shp' =>
      if (d =? 1)%nat then 0%nat :: unsqueeze_index shp' idx
      else match idx with
           | i :: idx' => i :: unsqueeze_index shp' idx'
           | [] => 0%nat :: unsqueeze_index shp' []
           end
  end.

(** [a.squeeze()]: every axis of size one is dropped. *)
Definition squeeze (a : ndarray) : ndarray :=
  mkarray (filter (fun d => negb (d =? 1)%nat) (shape a))
          (fun idx => item a (unsqueeze_index (shape a) idx)).

(** The rows [start:stop] of an array with at least one axis. *)
Definition slice_rows (a : ndarray) (start stop : option Z) : ndarray :=
  let '(lo, cnt) := slice_indices (hd 0%nat (shape a)) start stop in
  mkarray (cnt :: tl (shape a))
    (fun idx => match idx with
                | i :: rest => item a ((lo + i)%nat :: rest)
                | [] => item a []
                end).

(** The columns [start:stop] of an array with at least two axes. *)
Definition slice_cols (a : ndarray) (start stop : option Z) : ndarray :=
  let '(lo, cnt) := slice_indices (hd 0%nat (tl (shape a))) start stop in
  mkarray (hd 0%nat (shape a) :: cnt :: tl (tl (shape a)))
    (fun idx => match idx with
                | i :: j :: rest => item a (i :: (lo + j)%nat :: rest)
                | _ => item a idx
                end).

(** [a[start:stop, :]]: two subscripts need two axes. *)
Definition getitem_rows (a : ndarray) (start stop : option Z)
  : outcome ndarray :=
  match shape a with
  | _ :: _ :: _ => Ret (slice_rows a start stop)
  | _ => Raise IndexError
  end.

(** [a[:, start:stop]] *)
Definition getitem_cols (a : ndarray) (start stop : option Z)
  : outcome ndarray :=
  match shape a with
  | _ :: _ :: _ => Ret (slice_cols a start stop)
  | _ => Raise IndexError
  end.

Fixpoint set_nth (k : nat) (x : nat) (l : list nat) : list nat :=
  match l, k with
  | [], _ => []
  | _ :: tl, O => x :: tl
  | y :: tl, S k' => y :: set_nth k' x tl
  end.

(** The two shapes agree on every axis but [axis] ([k] counts the axes
    already passed). *)
Fixpoint dims_agree (k axis : nat) (s1 s2 : list nat) : bool :=
  match s1, s2 with
  | [], [] => true
  | d1 :: t1, d2 :: t2 =>
      ((k =? axis)%nat || (d1 =? d2)%nat) && dims_agree (S k) axis t1 t2
  | _, _ => false
  end.

(** Two arrays joined along [axis], once the shapes have been checked. *)
Definition join (axis : nat) (a b : ndarray) : ndarray :=
  let na := nth axis (shape a) 0%nat in
  mkarray (set_nth axis (na + nth axis (shape b) 0%nat)%nat (shape a))
          (fun idx =>
             let i := nth axis idx 0%nat in
             if (i <? na)%nat then item a idx
             else item b (set_nth axis (i - na)%nat idx)).

(** [np.concatenate([a, b], axis=axis)] *)
Definition np_concatenate (a b : ndarray) (axis : nat) : outcome ndarray :=
  if negb (axis <? ndim a)%nat then Raise ValueError
  else if negb (ndim a =? ndim b)%nat then Raise ValueError
  else if negb (dims_agree 0 axis (shape a) (shape b)) then Raise ValueError
  else Ret (join axis a b).

(** [torch.cat([a, b])], along dimension 0.  A one-dimensional empty
    tensor is skipped, as torch does. *)
Definition torch_cat (a b : ndarray) : outcome ndarray :=
  match shape a, shape b with
  | [O], _ => Ret b
  | _, [O] => Ret a
  | _, _ =>
      if negb (0 <? ndim a)%nat then Raise RuntimeError
      else if negb (ndim a =? ndim b)%nat then Raise RuntimeError
      else if negb (dims_agree 0 0 (shape a) (shape b)) then Raise RuntimeError
      else Ret (join 0 a b)
  end.

End Arrays.

Arguments mkarray {R}.
Arguments shape {R}.
Arguments item {R}.
Arguments ndim {R}.
Arguments shape_at {R}.
Arguments T {R}.
Arguments squeeze {R}.
Arguments slice_rows {R}.
Arguments slice_cols {R}.
Arguments getitem_rows {R}.
Arguments getitem_cols {R}.
Arguments join {R}.
Arguments np_concatenate {R}.
Arguments torch_cat {R}.

(* ================================================================== *)
(** * Effects: model calls and files *)
(* ================================================================== *)

(** What the program does to the world, in order. *)
Inductive event (R : Type) : Type :=
| ForecastModel (start_mat : ndarray R) (n_out : Z)
    (* one call of forecast_model *)
| Mkdir
    (* (file_dir / 'tmp_pred').mkdir(exist_ok=True) *)
| TorchSave (mat : ndarray R) (batch_id : Z).
    (* torch.save(mat, file_dir / 'tmp_pred' / f'output_mat_{batch_id}.torch') *)

Arguments ForecastModel {R}.
Arguments Mkdir {R}.
Arguments TorchSave {R}.

(** A statement yields the events it performed and its outcome; the events
    of a statement that raises stay performed. *)
Definition M (R A : Type) : Type := list (event R) * outcome A.

Definition ret {R A : Type} (a : A) : M R A := ([], Ret a).

Definition bind {R A B : Type} (m : M R A) (f : A -> M R B) : M R B :=
  match m with
  | (t, Ret a) => let (t', r) := f a in (t ++ t', r)
  | (t, Raise e) => (t, Raise e)
  | (t, OutOfFuel) => (t, OutOfFuel)
  end.

Definition lift {R A : Type} (o : outcome A) : M R A := ([], o).

Definition emit {R : Type} (e : event R) : M R unit := ([e], Ret tt).

Declare Scope py_scope.
Delimit Scope py_scope with py.
Notation "x <- m ;; k" := (bind m (fun x => k))
  (at level 61, m at next level, right associativity) : py_scope.
Notation "' pat <- m ;; k" := (bind m (fun x => match x with pat => k end))
  (at level 61, pat pattern, m at next level, right associativity) : py_scope.
Notation "m ;; k" := (bind m (fun _ => k))
  (at level 61, right associativity) : py_scope.

(** The events and the outcome of a run. *)
Definition trace {R A : Type} (m : M R A) : list (event R) := fst m.
Definition result {R A : Type} (m : M R A) : outcome A := snd m.

(** The calls of the Forecast Model among the events, in order. *)
Fixpoint model_calls {R : Type} (t : list (event R))
  : list (ndarray R * Z) :=
  match t with
  | [] => []
  | ForecastModel w n :: t' => (w, n) :: model_calls t'
  | _ :: t' => model_calls t'
  end.

(** The matrices handed to [torch.save], in order. *)
Fixpoint saved {R : Type} (t : list (event R)) : list (ndarray R * Z) :=
  match t with
  | [] => []
  | TorchSave m b :: t' => (m, b) :: saved t'
  | _ :: t' => saved t'
  end.


(* ================================================================== *)
(** * Arguments and configuration *)
(* ================================================================== *)

(** The fields of [args] read after training.  [lag] and [horizon] are the
    values the network was configured with (lines 75-76 and 87-88). *)
Module Args.
Record t : Type := mk {
  dataset : string;
  pair_id : Z;
  validation : bool;
  batch_id : Z;
  lag : Z;
  horizon : Z
}.
End Args.

(** [experiment_configs['dataset']]: its ['_name_'] and ['size'] entries. *)
Module Config.
Record dataset_t : Type := mk_dataset {
  _name_ : string;
  size : list Z
}.
Record t : Type := mk {
  dataset : dataset_t
}.
End Config.

(** [x in [a, b, ...]] on integers and on strings. *)
Definition int_in (x : Z) (l : list Z) : bool := existsb (Z.eqb x) l.
Definition str_in (x : string) (l : list string) : bool :=
  existsb (String.eqb x) l.

(* ================================================================== *)
(** * Counting iterations *)
(* ================================================================== *)

(** The least integer not below [a / b], for [b > 0]. *)
Definition ceil_div (a b : Z) : Z := - ((- a) / b).

(** The number of passes through the reconstruction loop when the seed
    window has [seed_len] rows: one pass at least, then as many as it takes
    for [seed_len + k * horizon] to reach [n]. *)
Definition rollout_calls (seed_len horizon n : Z) : nat :=
  Z.to_nat (Z.max 1 (ceil_div (n - seed_len) horizon)).

(** The dataset names for which [main] goes on after training (line 148). *)
Definition rollout_datasets : list string :=
  ["ODE_Lorenz"; "PDE_KS"; "KS_Official"; "Lorenz_Official"]%string.

(** The number of rows the slice [q * horizon : q * horizon + lag] finds in a
    history of [rows] rows. *)
Definition window_rows (rows : nat) (lag horizon q : Z) : nat :=
  snd (slice_indices rows (Some (q * horizon)) (Some (q * horizon + lag))).

(** The number of rows the slice [-lag:] finds in a history of [rows]
    rows. *)
Definition last_rows_count (rows : nat) (lag : Z) : nat :=
  snd (slice_indices rows (Some (- lag)) None).

(** The [count] integers from [first] on. *)
Definition consecutive (first : Z) (count : nat) : list Z :=
  map (fun n => first + Z.of_nat n) (seq 0 count).

(* ================================================================== *)
(** * The program after training *)
(* ================================================================== *)

Section Program.

Variable R : Type.
Abbreviation array := (ndarray R).

(** [ctf4science.data_module], every loader called with
    [transpose=True]: the training matrices, the validation matrix where
    there is one, and the initial-condition matrix, each channel-major. *)
Variable load_dataset : string -> Z -> list array * array.
Variable load_validation_dataset :
  string -> Z -> list array * array * array.
Variable get_prediction_timesteps : string -> Z -> array.
Variable get_validation_prediction_timesteps : string -> Z -> array.

(** [train.forecast_model] on the trained network and the transform pair,
    which no longer change: what is left to vary is [config=args], the
    start matrix and [n_out]. *)
Variable forecast_model : Args.t -> array -> Z -> array.

Local Open Scope py_scope.

Definition call_forecast_model (args : Args.t) (start_mat : array)
  (n_out : Z) : M R array :=
  emit (ForecastModel start_mat n_out) ;;
  ret (forecast_model args start_mat n_out).

(** Lines 169-185: the [while] loop of the reconstruction branch.  The
    state of the loop is [output_mat_full] and [start_idx]; the value is
    [output_mat_full] when the loop is left. *)
Fixpoint reconstruction_loop (fuel : nat) (args : Args.t)
  (data_mat : array) (lag horizon output_timesteps : Z)
  (output_mat_full : option array) (start_idx : Z)
  : M R (option array) :=
  match fuel with
  | O => lift OutOfFuel
  | S fuel' =>
      again <- match output_mat_full with
               | None => ret true
               | Some full =>
                   n <- lift (shape_at full 1) ;;
                   ret (Z.of_nat n <? output_timesteps)
               end ;;
      if (again : bool) then
        data_mat_tmp <- lift (getitem_rows data_mat
                                (Some (start_idx * horizon))
                                (Some (start_idx * horizon + lag))) ;;
        output_mat <- call_forecast_model args data_mat_tmp horizon ;;
        let output_mat := T output_mat in
        let data_mat_tmp := T (squeeze data_mat_tmp) in
        full' <- (if start_idx =? 0
                  then lift (np_concatenate data_mat_tmp output_mat 1)
                  else match output_mat_full with
                       | Some full => lift (np_concatenate full output_mat 1)
                       | None => lift (Raise ValueError)
                       end) ;;
        reconstruction_loop fuel' args data_mat lag horizon
          output_timesteps (Some full') (start_idx + 1)
      else ret output_mat_full
  end.

(** Lines 158-187: the reconstruction branch. *)
Definition generate_reconstructions (fuel : nat) (args : Args.t)
  (lag horizon : Z) : M R array :=
  let dataset := Args.dataset args in
  let pair_id := Args.pair_id args in
  '(train_mats, output_timesteps) <-
    (if Args.validation args then
       let '(train_mats, _, init_data) :=
         load_validation_dataset dataset pair_id in
       n <- lift (shape_at
                    (get_validation_prediction_timesteps dataset pair_id) 0) ;;
       ret (train_mats, Z.of_nat n)
     else
       let '(train_mats, init_data) := load_dataset dataset pair_id in
       n <- lift (shape_at (get_prediction_timesteps dataset pair_id) 0) ;;
       ret (train_mats, Z.of_nat n)) ;;
  data_mat <- lift (subscript train_mats 0) ;;
  let data_mat := T data_mat in
  output_mat_full <- reconstruction_loop fuel args data_mat lag horizon
                       output_timesteps None 0 ;;
  match output_mat_full with
  | Some full => lift (getitem_cols full (Some 0) (Some output_timesteps))
  | None => lift (Raise TypeError)
  end.

(** Lines 191-220: the forecast branch. *)
Definition generate_forecasts (args : Args.t) (lag : Z) : M R array :=
  let dataset := Args.dataset args in
  let pair_id := Args.pair_id args in
  '(data_mat, output_timesteps) <-
    (if Args.validation args then
       let '(train_mats, _, init_mat) :=
         load_validation_dataset dataset pair_id in
       if int_in pair_id [8; 9] then
         n <- lift (shape_at
                      (get_validation_prediction_timesteps dataset pair_id) 0) ;;
         ret (init_mat, Z.of_nat n - lag)
       else
         data_mat <- lift (subscript train_mats 0) ;;
         n <- lift (shape_at
                      (get_validation_prediction_timesteps dataset pair_id) 0) ;;
         ret (data_mat, Z.of_nat n)
     else
       let '(train_mats, init_mat) := load_dataset dataset pair_id in
       if int_in pair_id [8; 9] then
         n <- lift (shape_at (get_prediction_timesteps dataset pair_id) 0) ;;
         ret (init_mat, Z.of_nat n - lag)
       else
         data_mat <- lift (subscript train_mats 0) ;;
         n <- lift (shape_at (get_prediction_timesteps dataset pair_id) 0) ;;
         ret (data_mat, Z.of_nat n)) ;;
  let data_mat := T data_mat in
  data_mat <- lift (getitem_rows data_mat (Some (- lag)) None) ;;
  output_mat <- call_forecast_model args data_mat output_timesteps ;;
  output_mat <- (if int_in pair_id [8; 9]
                 then lift (torch_cat data_mat output_mat)
                 else ret output_mat) ;;
  ret (T output_mat).

(** Lines 148-226: everything [main] does once [train_model] has
    returned. *)
Definition main (fuel : nat) (args : Args.t) (experiment_configs : Config.t)
  : M R unit :=
  let dataset_config := Config.dataset experiment_configs in
  if str_in (Config._name_ dataset_config)
       ["ODE_Lorenz"; "PDE_KS"; "KS_Official"; "Lorenz_Official"]%string
  then
    lag <- lift (subscript (Config.size dataset_config) 0) ;;
    horizon <- lift (subscript (Config.size dataset_config) 2) ;;
    output_mat <- (if int_in (Args.pair_id args) [2; 4]
                   then generate_reconstructions fuel args lag horizon
                   else generate_forecasts args lag) ;;
    emit Mkdir ;;
    emit (TorchSave output_mat (Args.batch_id args))
  else ret tt.

(** ** Vocabulary of the statements *)

(** What the loaders give for [args], whichever of the two regimes
    [args.validation] selects. *)
Definition train_mats_of (args : Args.t) : list array :=
  if Args.validation args
  then fst (fst (load_validation_dataset (Args.dataset args)
                   (Args.pair_id args)))
  else fst (load_dataset (Args.dataset args) (Args.pair_id args)).

Definition init_mat_of (args : Args.t) : array :=
  if Args.validation args
  then snd (load_validation_dataset (Args.dataset args) (Args.pair_id args))
  else snd (load_dataset (Args.dataset args) (Args.pair_id args)).

Definition prediction_timesteps_of (args : Args.t) : array :=
  if Args.validation args
  then get_validation_prediction_timesteps (Args.dataset args)
         (Args.pair_id args)
  else get_prediction_timesteps (Args.dataset args) (Args.pair_id args).

(** The matrix the forecast branch takes its seed window from: the
    initial-condition matrix for the pair ids 8 and 9, the first training
    matrix for the others. *)
Definition seed_source (args : Args.t) : option array :=
  if int_in (Args.pair_id args) [8; 9] then Some (init_mat_of args)
  else hd_error (train_mats_of args).

(** The seed window of the forecast branch: [data_mat[-lag:, :]]. *)
Definition last_rows (data_mat : array) (lag : Z) : array :=
  slice_rows data_mat (Some (- lag)) None.

(** What the forecast branch does once it has its matrix and its number of
    timesteps (lines 209-220). *)
Definition forecast_tail (args : Args.t) (lag : Z) (data_mat : array)
  (output_timesteps : Z) : M R array :=
  bind (lift (getitem_rows (T data_mat) (Some (- lag)) None))
    (fun seed =>
       bind (call_forecast_model args seed output_timesteps)
         (fun output_mat =>
            bind (if int_in (Args.pair_id args) [8; 9]
                  then lift (torch_cat seed output_mat)
                  else ret output_mat)
              (fun output_mat => ret (T output_mat)))).

(** The window read from the history at step [q] of the reconstruction
    loop, and what the model answers to it, once turned channel-major. *)
Definition window (data_mat : array) (lag horizon q : Z) : array :=
  slice_rows data_mat (Some (q * horizon)) (Some (q * horizon + lag)).

Definition prediction (args : Args.t) (data_mat : array)
  (lag horizon q : Z) : array :=
  T (forecast_model args (window data_mat lag horizon q) horizon).

(** The seed window as the first iteration stores it. *)
Definition seed_block (data_mat : array) (lag horizon : Z) : array :=
  T (squeeze (window data_mat lag horizon 0)).

(** [output_mat_full] after [k] iterations of the loop ([k >= 1]). *)
Definition accumulator (args : Args.t) (data_mat : array)
  (lag horizon : Z) (k : nat) : array :=
  fold_left (join 1)
    (map (prediction args data_mat lag horizon) (consecutive 1 (k - 1)))
    (join 1 (seed_block data_mat lag horizon)
       (prediction args data_mat lag horizon 0)).

(** The output begins with the window: it has at least as many timesteps
    as the window has rows, and timestep [t] of the output is row [t] of
    the window, for every row of the window.  (The output is
    channel-major, the window time-major.) *)
Definition starts_with_window (output_mat seed : array) : Prop :=
  let lag := hd 0%nat (shape seed) in
  (lag <= nth 1 (shape output_mat) 0)%nat /\
  forall c t : nat, (t < lag)%nat ->
    item output_mat [c; t] = item seed [t; c].

(** [args] with another lag and horizon in the configuration of the
    network. *)
Definition with_model_lag (args : Args.t) (lag horizon : Z) : Args.t :=
  Args.mk (Args.dataset args) (Args.pair_id args) (Args.validation args)
    (Args.batch_id args) lag horizon.

(** The interface of the Forecast Model: asked for [n_out] timesteps on a
    window of [c] channels, it answers with an [n_out] by [c] matrix. *)
Definition returns_requested_length : Prop :=
  forall (args : Args.t) (w : array) (n_out : Z) (l c : nat),
    shape w = [l; c] -> 0 <= n_out ->
    shape (forecast_model args w n_out) = [Z.to_nat n_out; c].

End Program.

(* ================================================================== *)
(** * A concrete setting *)
(* ================================================================== *)

(** Collaborators simple enough to run the program on: they serve to
    evaluate it at given sizes. *)
Module Example.

(** A history of [rows] timesteps on [channels] channels, the way the
    loaders deliver it under [transpose=True] (channel-major): channel
    [c] holds [100 * t + c] at time [t]. *)
Definition history (channels rows : nat) : ndarray Z :=
  mkarray [channels; rows]
    (fun idx => match idx with
                | [c; t] => Z.of_nat (100 * t + c)
                | _ => 0
                end).

(** The [steps] times at which a prediction is wanted. *)
Definition timestamps (steps : nat) : ndarray Z :=
  mkarray [steps] (fun idx => Z.of_nat (hd 0%nat idx)).

(** A model that answers any window with [n_out] rows, as wide as the
    window, holding [-1 - t] in row [t]. *)
Definition model (_ : Args.t) (w : ndarray Z) (n_out : Z) : ndarray Z :=
  mkarray [Z.to_nat n_out; nth 1 (shape w) 0%nat]
    (fun idx => - 1 - Z.of_nat (hd 0%nat idx)).

Definition load_dataset (channels rows : nat) (_ : string) (_ : Z)
  : list (ndarray Z) * ndarray Z :=
  ([history channels rows], history channels rows).

Definition load_validation_dataset (channels rows : nat) (_ : string)
  (_ : Z) : list (ndarray Z) * ndarray Z * ndarray Z :=
  ([history channels rows], history channels rows, history channels rows).

Definition get_prediction_timesteps (steps : nat) (_ : string) (_ : Z)
  : ndarray Z :=
  timestamps steps.

(** The network is configured with lag 96 and horizon 24, whatever the
    dataset says. *)
Definition args (pair_id : Z) : Args.t :=
  Args.mk "PDE_KS" pair_id false 0 96 24.

Definition configs (name : string) (lag horizon : Z) : Config.t :=
  Config.mk (Config.mk_dataset name [lag; 0; horizon]).

Definition loop (channels rows : nat) (fuel : nat)
  (lag horizon output_timesteps : Z) : M Z (option (ndarray Z)) :=
  reconstruction_loop Z model fuel (args 2) (T (history channels rows))
    lag horizon output_timesteps None 0.

Definition reconstructions (channels rows steps : nat) (fuel : nat)
  (lag horizon : Z) : M Z (ndarray Z) :=
  generate_reconstructions Z (load_dataset channels rows)
    (load_validation_dataset channels rows)
    (get_prediction_timesteps steps) (get_prediction_timesteps steps)
    model fuel (args 2) lag horizon.

Definition forecasts (channels rows steps : nat) (pair_id : Z) (lag : Z)
  : M Z (ndarray Z) :=
  generate_forecasts Z (load_dataset channels rows)
    (load_validation_dataset channels rows)
    (get_prediction_timesteps steps) (get_prediction_timesteps steps)
    model (args pair_id) lag.

Definition run (channels rows steps : nat) (fuel : nat) (pair_id : Z)
  (name : string) (lag horizon : Z) : M Z unit :=
  main Z (load_dataset channels rows)
    (load_validation_dataset channels rows)
    (get_prediction_timesteps steps) (get_prediction_timesteps steps)
    model fuel (args pair_id) (configs name lag horizon).

End Example.

(* ================================================================== *)
(** * Facts on slices, shapes and the monad *)
(* ================================================================== *)

Lemma clamp_index_inside (len : nat) (i : Z) :
  0 <= i <= Z.of_nat len -> clamp_index len i = Z.to_nat i.
Proof.
  intros [Hlo Hhi]. unfold clamp_index.
  destruct (Z.ltb_spec i 0); [lia |].
  rewrite Z.min_l by lia. reflexivity.
Qed.

Lemma clamp_index_from_end (len : nat) (i : Z) :
  0 < i <= Z.of_nat len -> clamp_index len (- i) = (len - Z.to_nat i)%nat.
Proof.
  intros [Hlo Hhi]. unfold clamp_index.
  destruct (Z.ltb_spec (- i) 0); [| lia].
  rewrite Z.max_r by lia. lia.
Qed.

Lemma ceil_div_nonpos (x h : Z) : 0 < h -> (ceil_div x h <= 0 <-> x <= 0).
Proof.
  intros Hh. unfold ceil_div. split; intros H.
  - assert (0 <= - x / h) by lia.
    destruct (Z.le_gt_cases x 0) as [|Hx]; [assumption |].
    assert (- x / h < 0) by (apply Z.div_lt_upper_bound; lia). lia.
  - assert (0 <= - x / h) by (apply Z.div_pos; lia). lia.
Qed.

Lemma ceil_div_step (x h : Z) :
  0 < h -> ceil_div (x - h) h = ceil_div x h - 1.
Proof.
  intros Hh. unfold ceil_div.
  replace (- (x - h)) with (- x + 1 * h) by lia.
  rewrite Z.div_add by lia. lia.
Qed.


(** [ceil_div x h] is the least [c] with [x <= c * h]. *)
Lemma ceil_div_spec (x h : Z) :
  0 < h -> (ceil_div x h - 1) * h < x <= ceil_div x h * h.
Proof.
  intros Hh. unfold ceil_div.
  pose proof (Z.div_mod (- x) h ltac:(lia)) as E.
  pose proof (Z.mod_pos_bound (- x) h Hh) as B.
  nia.
Qed.

(** A window that lies inside the history has [lag] rows; one that reaches
    past its end has only the rows that exist. *)
Lemma window_rows_inside (rows : nat) (lag horizon q : Z) :
  0 <= q * horizon -> 0 <= lag -> q * horizon + lag <= Z.of_nat rows ->
  window_rows rows lag horizon q = Z.to_nat lag.
Proof.
  intros Hq Hlag Hin. unfold window_rows, slice_indices. cbn [snd].
  rewrite !clamp_index_inside by lia. lia.
Qed.

Lemma window_rows_clipped (rows : nat) (lag horizon q : Z) :
  0 <= q * horizon -> 0 <= lag ->
  window_rows rows lag horizon q
  = (Nat.min rows (Z.to_nat (q * horizon + lag))
     - Nat.min rows (Z.to_nat (q * horizon)))%nat.
Proof.
  intros Hq Hlag. unfold window_rows, slice_indices, clamp_index. cbn [snd].
  destruct (Z.ltb_spec (q * horizon + lag) 0); [lia |].
  destruct (Z.ltb_spec (q * horizon) 0); lia.
Qed.

(** The loop is left as soon as the accumulator is long enough, and not
    before. *)
Lemma calls_reach (seed_len : nat) (horizon n : Z) :
  0 < horizon ->
  n <= Z.of_nat (seed_len
                 + rollout_calls (Z.of_nat seed_len) horizon n
                   * Z.to_nat horizon).
Proof.
  intros Hh. unfold rollout_calls.
  pose proof (ceil_div_spec (n - Z.of_nat seed_len) horizon Hh).
  nia.
Qed.


Lemma rollout_calls_pos (seed_len horizon n : Z) :
  (1 <= rollout_calls seed_len horizon n)%nat.
Proof. unfold rollout_calls. lia. Qed.

Lemma last_rows_count_inside (rows : nat) (lag : Z) :
  0 < lag <= Z.of_nat rows -> last_rows_count rows lag = Z.to_nat lag.
Proof.
  intros H. unfold last_rows_count, slice_indices. cbn [snd].
  rewrite clamp_index_from_end by lia. lia.
Qed.

Lemma last_rows_count_clipped (rows : nat) (lag : Z) :
  0 < lag -> last_rows_count rows lag = Nat.min rows (Z.to_nat lag).
Proof.
  intros H. unfold last_rows_count, slice_indices, clamp_index. cbn [snd].
  destruct (Z.ltb_spec (- lag) 0); lia.
Qed.

Lemma consecutive_succ (first : Z) (count : nat) :
  consecutive first (S count) = first :: consecutive (first + 1) count.
Proof.
  unfold consecutive. simpl. rewrite Z.add_0_r. f_equal.
  rewrite <- seq_shift, map_map. apply map_ext. intros n. lia.
Qed.

Lemma consecutive_length (first : Z) (count : nat) :
  List.length (consecutive first count) = count.
Proof. unfold consecutive. rewrite length_map, length_seq. reflexivity. Qed.

Lemma consecutive_nth (first : Z) (count i : nat) :
  (i < count)%nat ->
  nth_error (consecutive first count) i = Some (first + Z.of_nat i).
Proof.
  intros H. unfold consecutive.
  rewrite nth_error_map, nth_error_seq.
  destruct (Nat.ltb_spec i count); [reflexivity | lia].
Qed.

Section ArrayFacts.

Context {R : Type}.
Implicit Types a b : ndarray R.

Lemma bind_ret {A B : Type} (x : A) (f : A -> M R B) :
  bind (ret x) f = f x.
Proof. unfold bind, ret. destruct (f x). reflexivity. Qed.

Lemma bind_lift_Ret {A B : Type} (x : A) (f : A -> M R B) :
  bind (lift (Ret x)) f = f x.
Proof. apply bind_ret. Qed.

(** A continuation without events adds nothing to the trace. *)
Lemma trace_bind_silent {A B : Type} (m : M R A) (f : A -> M R B) :
  (forall x, trace (f x) = []) -> trace (bind m f) = trace m.
Proof.
  intros Hf. destruct m as [t [x | e |]]; try reflexivity.
  unfold bind. specialize (Hf x). destruct (f x) as [t' r].
  cbn [trace fst] in *. rewrite Hf, app_nil_r. reflexivity.
Qed.

Lemma bind_run {A B : Type} (t : list (event R)) (x : A) (f : A -> M R B) :
  bind (t, Ret x) f = (t ++ fst (f x), snd (f x)).
Proof. unfold bind. destruct (f x). reflexivity. Qed.

Lemma shape_slice_rows a start stop :
  shape (slice_rows a start stop)
  = snd (slice_indices (hd 0%nat (shape a)) start stop) :: tl (shape a).
Proof.
  unfold slice_rows. destruct (slice_indices _ _ _). reflexivity.
Qed.

Lemma item_slice_rows a start stop (i : nat) (rest : list nat) :
  item (slice_rows a start stop) (i :: rest)
  = item a ((fst (slice_indices (hd 0%nat (shape a)) start stop) + i)%nat
            :: rest).
Proof.
  unfold slice_rows. destruct (slice_indices _ _ _). reflexivity.
Qed.

Lemma shape_slice_cols a start stop :
  shape (slice_cols a start stop)
  = hd 0%nat (shape a)
    :: snd (slice_indices (hd 0%nat (tl (shape a))) start stop)
    :: tl (tl (shape a)).
Proof.
  unfold slice_cols. destruct (slice_indices _ _ _). reflexivity.
Qed.

Lemma item_slice_cols a start stop (i j : nat) (rest : list nat) :
  item (slice_cols a start stop) (i :: j :: rest)
  = item a (i :: (fst (slice_indices (hd 0%nat (tl (shape a))) start stop)
                  + j)%nat :: rest).
Proof.
  unfold slice_cols. destruct (slice_indices _ _ _). reflexivity.
Qed.

Lemma getitem_rows_2d a (n c : nat) start stop :
  shape a = [n; c] -> getitem_rows a start stop = Ret (slice_rows a start stop).
Proof. intros H. unfold getitem_rows. rewrite H. reflexivity. Qed.

Lemma getitem_cols_2d a (c m : nat) start stop :
  shape a = [c; m] -> getitem_cols a start stop = Ret (slice_cols a start stop).
Proof. intros H. unfold getitem_cols. rewrite H. reflexivity. Qed.

Lemma shape_join_cols a b (c m : nat) :
  shape a = [c; m] ->
  shape (join 1 a b) = [c; (m + nth 1 (shape b) 0)%nat].
Proof. intros H. unfold join. simpl. rewrite H. reflexivity. Qed.

Lemma shape_join_rows a b (n c : nat) :
  shape a = [n; c] ->
  shape (join 0 a b) = [(n + nth 0 (shape b) 0)%nat; c].
Proof. intros H. unfold join. simpl. rewrite H. reflexivity. Qed.

Lemma item_join_cols_left a b (c m i t : nat) :
  shape a = [c; m] -> (t < m)%nat ->
  item (join 1 a b) [i; t] = item a [i; t].
Proof.
  intros H Ht. unfold join. simpl. rewrite H. simpl.
  destruct (Nat.ltb_spec t m); [reflexivity | lia].
Qed.

Lemma item_join_cols_right a b (c m i t : nat) :
  shape a = [c; m] -> (m <= t)%nat ->
  item (join 1 a b) [i; t] = item b [i; (t - m)%nat].
Proof.
  intros H Ht. unfold join. simpl. rewrite H. simpl.
  destruct (Nat.ltb_spec t m); [lia | reflexivity].
Qed.

Lemma item_join_rows_left a b (n c t i : nat) :
  shape a = [n; c] -> (t < n)%nat ->
  item (join 0 a b) [t; i] = item a [t; i].
Proof.
  intros H Ht. unfold join. simpl. rewrite H. simpl.
  destruct (Nat.ltb_spec t n); [reflexivity | lia].
Qed.

Lemma np_concatenate_cols a b (c m n : nat) :
  shape a = [c; m] -> shape b = [c; n] ->
  np_concatenate a b 1 = Ret (join 1 a b).
Proof.
  intros Ha Hb. unfold np_concatenate, ndim. rewrite Ha, Hb. simpl.
  rewrite Nat.eqb_refl. reflexivity.
Qed.

Lemma np_concatenate_low a b (axis : nat) :
  (ndim a <= axis)%nat -> np_concatenate a b axis = Raise ValueError.
Proof.
  intros H. unfold np_concatenate.
  destruct (Nat.ltb_spec axis (ndim a)); [lia | reflexivity].
Qed.

Lemma torch_cat_rows a b (n c m : nat) :
  shape a = [n; c] -> shape b = [m; c] ->
  torch_cat a b = Ret (join 0 a b).
Proof.
  intros Ha Hb. unfold torch_cat, ndim. rewrite Ha, Hb. simpl.
  rewrite Nat.eqb_refl. destruct n, m; reflexivity.
Qed.

(** [squeeze] leaves a matrix alone when neither side has size one. *)
Lemma shape_squeeze_2d a (n c : nat) :
  shape a = [n; c] -> n <> 1%nat -> c <> 1%nat -> shape (squeeze a) = [n; c].
Proof.
  intros H Hn Hc. unfold squeeze. simpl. rewrite H. simpl.
  destruct (Nat.eqb_spec n 1); [contradiction |].
  destruct (Nat.eqb_spec c 1); [contradiction |]. reflexivity.
Qed.

Lemma item_squeeze_2d a (n c i j : nat) :
  shape a = [n; c] -> n <> 1%nat -> c <> 1%nat ->
  item (squeeze a) [i; j] = item a [i; j].
Proof.
  intros H Hn Hc. unfold squeeze. simpl. rewrite H. simpl.
  destruct (Nat.eqb_spec n 1); [contradiction |].
  destruct (Nat.eqb_spec c 1); [contradiction |]. reflexivity.
Qed.

(** A matrix with a side of size one loses an axis. *)
Lemma ndim_squeeze_thin a (n c : nat) :
  shape a = [n; c] -> n = 1%nat \/ c = 1%nat -> (ndim (squeeze a) < 2)%nat.
Proof.
  intros H Hthin. unfold ndim, squeeze. simpl. rewrite H. simpl.
  destruct (Nat.eqb_spec n 1), (Nat.eqb_spec c 1); simpl; lia.
Qed.

(** Blocks of [w] columns appended one after the other. *)
Lemma shape_fold_join (c w : nat) (bs : list (ndarray R)) :
  Forall (fun b => shape b = [c; w]) bs ->
  forall a (m : nat),
    shape a = [c; m] ->
    shape (fold_left (join 1) bs a) = [c; (m + List.length bs * w)%nat].
Proof.
  induction 1 as [|b bs Hb _ IH]; intros a m Ha; simpl.
  - rewrite Ha, Nat.add_0_r. reflexivity.
  - rewrite (IH _ (m + w)%nat).
    + f_equal. f_equal. lia.
    + rewrite (shape_join_cols _ _ _ _ Ha), Hb. reflexivity.
Qed.

Lemma item_fold_join_left (c w : nat) (bs : list (ndarray R)) :
  Forall (fun b => shape b = [c; w]) bs ->
  forall a (m i t : nat),
    shape a = [c; m] -> (t < m)%nat ->
    item (fold_left (join 1) bs a) [i; t] = item a [i; t].
Proof.
  induction 1 as [|b bs Hb _ IH]; intros a m i t Ha Ht; simpl.
  - reflexivity.
  - rewrite (IH _ (m + w)%nat).
    + apply (item_join_cols_left _ _ _ _ _ _ Ha Ht).
    + rewrite (shape_join_cols _ _ _ _ Ha), Hb. reflexivity.
    + lia.
Qed.

Lemma item_fold_join_block (c w : nat) (bs : list (ndarray R)) :
  Forall (fun b => shape b = [c; w]) bs ->
  forall a (m q i t : nat) (b : ndarray R),
    shape a = [c; m] -> nth_error bs q = Some b -> (t < w)%nat ->
    item (fold_left (join 1) bs a) [i; (m + q * w + t)%nat] = item b [i; t].
Proof.
  induction 1 as [|b0 bs Hb0 Hbs IH]; intros a m q i t b Ha Hq Ht.
  - destruct q; discriminate.
  - assert (Hj : shape (join 1 a b0) = [c; (m + w)%nat])
      by (rewrite (shape_join_cols _ _ _ _ Ha), Hb0; reflexivity).
    destruct q as [|q]; simpl in Hq |- *.
    + injection Hq as <-.
      rewrite (item_fold_join_left c w bs Hbs _ _ _ _ Hj) by lia.
      rewrite (item_join_cols_right _ _ _ _ _ _ Ha) by lia.
      do 2 f_equal. f_equal. lia.
    + replace (m + (w + q * w) + t)%nat with (m + w + q * w + t)%nat by lia.
      apply (IH _ _ _ _ _ _ Hj Hq Ht).
Qed.

End ArrayFacts.

(* ================================================================== *)
(** * The reconstruction loop *)
(* ================================================================== *)

Section LoopFacts.

Variable R : Type.
Variable forecast_model : Args.t -> ndarray R -> Z -> ndarray R.

Variable args : Args.t.
Variable data_mat : ndarray R.
Variables lag horizon output_timesteps : Z.
Variables rows channels : nat.

Hypothesis model_ok : returns_requested_length R forecast_model.
Hypothesis data_shape : shape data_mat = [rows; channels].
Hypothesis horizon_pos : 0 < horizon.

Local Abbreviation win := (window R data_mat lag horizon).
Local Abbreviation pred := (prediction R forecast_model args data_mat lag horizon).
Local Abbreviation loop :=
  (reconstruction_loop R forecast_model).

Lemma shape_window (q : Z) :
  shape (win q) = [window_rows rows lag horizon q; channels].
Proof.
  unfold window. rewrite shape_slice_rows, data_shape. reflexivity.
Qed.

Lemma shape_prediction (q : Z) :
  shape (pred q) = [channels; Z.to_nat horizon].
Proof.
  unfold prediction, T. simpl.
  rewrite (model_ok args _ horizon _ _ (shape_window q)) by lia.
  reflexivity.
Qed.

Lemma bind_call {B : Type} (a : Args.t) (w : ndarray R) (n : Z)
  (k : ndarray R -> M R B) :
  bind (call_forecast_model R forecast_model a w n) k
  = (ForecastModel w n :: fst (k (forecast_model a w n)),
     snd (k (forecast_model a w n))).
Proof.
  unfold call_forecast_model, bind, emit, ret. simpl.
  destruct (k (forecast_model a w n)). reflexivity.
Qed.

(** The loop from a state reached after the first pass: [j] more passes
    are made, each on the window read from the history. *)
Lemma loop_running (j : nat) :
  forall (fuel : nat) (full : ndarray R) (i : Z) (m : nat),
    (j < fuel)%nat -> 0 < i -> shape full = [channels; m] ->
    Z.to_nat (ceil_div (output_timesteps - Z.of_nat m) horizon) = j ->
    loop fuel args data_mat lag horizon output_timesteps (Some full) i
    = (map (fun q => ForecastModel (win q) horizon) (consecutive i j),
       Ret (Some (fold_left (join 1) (map pred (consecutive i j)) full))).
Proof.
  induction j as [|j IH]; intros fuel full i m Hfuel Hi Hfull Hj;
    (destruct fuel as [|fuel]; [lia |]); cbn [reconstruction_loop];
    unfold shape_at; rewrite Hfull; cbn [subscript nth_error];
    rewrite bind_lift_Ret, bind_ret.
  - assert (output_timesteps - Z.of_nat m <= 0)
      by (apply (ceil_div_nonpos _ horizon); lia).
    destruct (Z.ltb_spec (Z.of_nat m) output_timesteps); [lia |].
    reflexivity.
  - assert (~ output_timesteps - Z.of_nat m <= 0)
      by (rewrite <- (ceil_div_nonpos _ horizon); lia).
    destruct (Z.ltb_spec (Z.of_nat m) output_timesteps); [| lia].
    rewrite (getitem_rows_2d _ _ _ _ _ data_shape), bind_lift_Ret.
    fold (win i). rewrite bind_call.
    destruct (Z.eqb_spec i 0); [lia |].
    fold (pred i).
    rewrite (np_concatenate_cols _ _ _ _ _ Hfull (shape_prediction i)).
    rewrite bind_lift_Ret.
    rewrite (IH fuel _ (i + 1) (m + Z.to_nat horizon)%nat).
    + rewrite consecutive_succ. reflexivity.
    + lia.
    + lia.
    + rewrite (shape_join_cols _ _ _ _ Hfull), shape_prediction. reflexivity.
    + replace (output_timesteps - Z.of_nat (m + Z.to_nat horizon))
        with (output_timesteps - Z.of_nat m - horizon) by lia.
      rewrite ceil_div_step by lia. lia.
Qed.

(** ** The first pass and the whole loop *)

Variable seed_len : nat.
Hypothesis seed_shape : shape (win 0) = [seed_len; channels].

Local Abbreviation seed := (seed_block R data_mat lag horizon).
Local Abbreviation acc :=
  (accumulator R forecast_model args data_mat lag horizon).
Local Abbreviation calls :=
  (rollout_calls (Z.of_nat seed_len) horizon output_timesteps).

Lemma rollout_calls_succ :
  calls = S (Z.to_nat (ceil_div (output_timesteps
                                 - Z.of_nat (seed_len + Z.to_nat horizon))
                         horizon)).
Proof.
  unfold rollout_calls.
  replace (output_timesteps - Z.of_nat (seed_len + Z.to_nat horizon))
    with (output_timesteps - Z.of_nat seed_len - horizon) by lia.
  rewrite ceil_div_step by lia. lia.
Qed.

(** A seed window of one row, or of one channel, is turned into a vector
    by [squeeze]; [np.concatenate] then refuses it: the loop ends in the
    first pass, after the model has been called once. *)
Lemma loop_thin_seed (fuel : nat) :
  seed_len = 1%nat \/ channels = 1%nat ->
  loop (S fuel) args data_mat lag horizon output_timesteps None 0
  = ([ForecastModel (win 0) horizon], Raise ValueError).
Proof.
  intros Hthin. cbn [reconstruction_loop]. rewrite bind_ret.
  rewrite (getitem_rows_2d _ _ _ _ _ data_shape), bind_lift_Ret.
  fold (win 0). rewrite bind_call. cbn [Z.eqb].
  pose proof (ndim_squeeze_thin _ _ _ seed_shape Hthin) as Hdim.
  rewrite np_concatenate_low; [reflexivity |].
  unfold ndim in *. cbn [T shape]. rewrite length_rev. lia.
Qed.

Hypothesis seed_thick : seed_len <> 1%nat.
Hypothesis channels_thick : channels <> 1%nat.

Lemma shape_seed_block : shape seed = [channels; seed_len].
Proof.
  unfold seed_block. cbn [T shape].
  rewrite (shape_squeeze_2d _ _ _ seed_shape seed_thick channels_thick).
  reflexivity.
Qed.

Lemma item_seed_block (c t : nat) : item seed [c; t] = item (win 0) [t; c].
Proof.
  unfold seed_block. cbn [T item rev app].
  apply (item_squeeze_2d _ _ _ _ _ seed_shape seed_thick channels_thick).
Qed.

(** The whole loop: [calls] passes; pass [q] calls the model on the window
    of the history at step [q], for [horizon] timesteps. *)
Lemma loop_from_start (fuel : nat) :
  (calls < fuel)%nat ->
  loop fuel args data_mat lag horizon output_timesteps None 0
  = (map (fun q => ForecastModel (win q) horizon) (consecutive 0 calls),
     Ret (Some (acc calls))).
Proof.
  intros Hfuel. destruct fuel as [|fuel]; [lia |].
  cbn [reconstruction_loop]. rewrite bind_ret.
  rewrite (getitem_rows_2d _ _ _ _ _ data_shape), bind_lift_Ret.
  fold (win 0). rewrite bind_call. cbn [Z.eqb].
  fold seed. fold (pred 0).
  rewrite (np_concatenate_cols _ _ _ _ _ shape_seed_block (shape_prediction 0)).
  rewrite bind_lift_Ret.
  pose proof rollout_calls_succ as Hk.
  set (j := Z.to_nat _) in Hk.
  rewrite (loop_running j fuel _ (0 + 1) (seed_len + Z.to_nat horizon)%nat);
    [| lia | lia | | reflexivity].
  - cbn [fst snd]. unfold accumulator. rewrite Hk, consecutive_succ.
    cbn [map Nat.sub]. rewrite Nat.sub_0_r. reflexivity.
  - rewrite (shape_join_cols _ _ _ _ shape_seed_block), shape_prediction.
    reflexivity.
Qed.

Lemma predictions_shape (first : Z) (count : nat) :
  Forall (fun b => shape b = [channels; Z.to_nat horizon])
    (map pred (consecutive first count)).
Proof.
  apply Forall_forall. intros b Hb. apply in_map_iff in Hb.
  destruct Hb as [q [<- _]]. apply shape_prediction.
Qed.

(** After [k >= 1] passes the accumulator holds the seed window and [k]
    blocks of [horizon] timesteps. *)
Lemma shape_accumulator (k : nat) :
  (1 <= k)%nat ->
  shape (acc k) = [channels; (seed_len + k * Z.to_nat horizon)%nat].
Proof.
  intros Hk. unfold accumulator.
  rewrite (shape_fold_join _ _ _ (predictions_shape 1 (k - 1)) _
             (seed_len + Z.to_nat horizon)%nat).
  - rewrite length_map, consecutive_length. f_equal. f_equal.
    destruct k; [lia |]. simpl. lia.
  - rewrite (shape_join_cols _ _ _ _ shape_seed_block), shape_prediction.
    reflexivity.
Qed.

(** Its first [seed_len] timesteps are the seed window. *)
Lemma item_accumulator_seed (k c t : nat) :
  (t < seed_len)%nat -> item (acc k) [c; t] = item (win 0) [t; c].
Proof.
  intros Ht. unfold accumulator.
  rewrite (item_fold_join_left _ _ _ (predictions_shape 1 (k - 1)) _
             (seed_len + Z.to_nat horizon)%nat).
  - rewrite (item_join_cols_left _ _ _ _ _ _ shape_seed_block Ht).
    apply item_seed_block.
  - rewrite (shape_join_cols _ _ _ _ shape_seed_block), shape_prediction.
    reflexivity.
  - lia.
Qed.

(** The block of pass [q] is what the model answered in pass [q]. *)
Lemma item_accumulator_block (k q c t : nat) :
  (q < k)%nat -> (t < Z.to_nat horizon)%nat ->
  item (acc k) [c; (seed_len + q * Z.to_nat horizon + t)%nat]
  = item (pred (Z.of_nat q)) [c; t].
Proof.
  intros Hq Ht. unfold accumulator.
  assert (Hj : shape (join 1 seed (pred 0))
               = [channels; (seed_len + Z.to_nat horizon)%nat])
    by (rewrite (shape_join_cols _ _ _ _ shape_seed_block), shape_prediction;
        reflexivity).
  destruct q as [|q].
  - rewrite (item_fold_join_left _ _ _ (predictions_shape 1 (k - 1)) _ _ _ _ Hj)
      by lia.
    rewrite (item_join_cols_right _ _ _ _ _ _ shape_seed_block) by lia.
    do 2 f_equal. f_equal. lia.
  - replace (seed_len + S q * Z.to_nat horizon + t)%nat
      with (seed_len + Z.to_nat horizon + q * Z.to_nat horizon + t)%nat by lia.
    apply (item_fold_join_block _ _ _ (predictions_shape 1 (k - 1)) _ _ _ _ _ _
             Hj); [| assumption].
    rewrite nth_error_map, consecutive_nth by lia. cbn [option_map].
    do 2 f_equal. lia.
Qed.

End LoopFacts.

(** Whatever the model answers and however long the loop is followed, the
    calls it makes are, in order, on the windows of the history at the
    steps [i], [i + 1], ...: nothing the model returned is ever fed back. *)
Lemma loop_calls_are_windows (R : Type)
  (forecast_model : Args.t -> ndarray R -> Z -> ndarray R)
  (args : Args.t) (data_mat : ndarray R) (lag horizon output_timesteps : Z)
  (fuel : nat) :
  forall (output_mat_full : option (ndarray R)) (i : Z),
  exists k : nat,
    trace (reconstruction_loop R forecast_model fuel args data_mat lag
             horizon output_timesteps output_mat_full i)
    = map (fun q => ForecastModel (window R data_mat lag horizon q) horizon)
        (consecutive i k).
Proof.
  induction fuel as [|fuel IH]; intros full i; [exists 0%nat; reflexivity |].
  cbn [reconstruction_loop].
  assert (Hbody :
    exists k : nat,
      trace (bind (lift (getitem_rows data_mat (Some (i * horizon))
                           (Some (i * horizon + lag))))
               (fun data_mat_tmp =>
                  bind (call_forecast_model R forecast_model args
                          data_mat_tmp horizon)
                    (fun output_mat =>
                       bind (if i =? 0
                             then lift (np_concatenate
                                          (T (squeeze data_mat_tmp))
                                          (T output_mat) 1)
                             else match full with
                                  | Some f =>
                                      lift (np_concatenate f (T output_mat) 1)
                                  | None => lift (Raise ValueError)
                                  end)
                         (fun full' =>
                            reconstruction_loop R forecast_model fuel args
                              data_mat lag horizon output_timesteps
                              (Some full') (i + 1)))))
      = map (fun q => ForecastModel (window R data_mat lag horizon q) horizon)
          (consecutive i k)).
  { unfold getitem_rows.
    destruct (shape data_mat) as [|n [|m rest]];
      try (exists 0%nat; reflexivity).
    rewrite bind_lift_Ret. fold (window R data_mat lag horizon i).
    rewrite bind_call. cbn [trace fst].
    set (w := window R data_mat lag horizon i).
    set (o := forecast_model args w horizon).
    assert (Hlift : exists r : outcome (ndarray R),
              (if i =? 0
               then lift (np_concatenate (T (squeeze w)) (T o) 1)
               else match full with
                    | Some f => lift (np_concatenate f (T o) 1)
                    | None => lift (Raise ValueError)
                    end) = (lift r : M R (ndarray R))).
    { destruct (i =? 0).
      - exists (np_concatenate (T (squeeze w)) (T o) 1). reflexivity.
      - destruct full as [f|].
        + exists (np_concatenate f (T o) 1). reflexivity.
        + exists (Raise ValueError). reflexivity. }
    destruct Hlift as [r ->].
    destruct r as [full' | e |];
      try (exists 1%nat; rewrite consecutive_succ; reflexivity).
    rewrite bind_lift_Ret.
    destruct (IH (Some full') (i + 1)) as [k Hk].
    exists (S k). rewrite consecutive_succ. cbn [map].
    unfold trace in Hk. rewrite Hk. reflexivity. }
  destruct full as [f|].
  - unfold shape_at.
    destruct (subscript (shape f) 1) as [n | e |];
      try (exists 0%nat; reflexivity).
    rewrite bind_lift_Ret, bind_ret.
    destruct (Z.of_nat n <? output_timesteps);
      [exact Hbody | exists 0%nat; reflexivity].
  - rewrite bind_ret. exact Hbody.
Qed.

(* ================================================================== *)
(** * The two branches and [main] *)
(* ================================================================== *)

Section BranchFacts.

Variable R : Type.
Variable load_dataset : string -> Z -> list (ndarray R) * ndarray R.
Variable load_validation_dataset :
  string -> Z -> list (ndarray R) * ndarray R * ndarray R.
Variable get_prediction_timesteps : string -> Z -> ndarray R.
Variable get_validation_prediction_timesteps : string -> Z -> ndarray R.
Variable forecast_model : Args.t -> ndarray R -> Z -> ndarray R.

Local Abbreviation reconstructions :=
  (generate_reconstructions R load_dataset load_validation_dataset
     get_prediction_timesteps get_validation_prediction_timesteps
     forecast_model).
Local Abbreviation forecasts :=
  (generate_forecasts R load_dataset load_validation_dataset
     get_prediction_timesteps get_validation_prediction_timesteps
     forecast_model).
Local Abbreviation train_mats :=
  (train_mats_of R load_dataset load_validation_dataset).
Local Abbreviation source :=
  (seed_source R load_dataset load_validation_dataset).
Local Abbreviation timesteps :=
  (prediction_timesteps_of R get_prediction_timesteps
     get_validation_prediction_timesteps).

Variable args : Args.t.
Variable tm : ndarray R.
Variables rows channels steps : nat.

Hypothesis tm_shape : shape tm = [channels; rows].
Hypothesis timesteps_shape : shape (timesteps args) = [steps].

Lemma shape_at_timesteps : shape_at (timesteps args) 0 = Ret steps.
Proof. unfold shape_at. rewrite timesteps_shape. reflexivity. Qed.

Lemma shape_T_tm : shape (T tm) = [rows; channels].
Proof. cbn [T shape]. rewrite tm_shape. reflexivity. Qed.

(** ** The reconstruction branch *)

Section Reconstruction.

Variable others : list (ndarray R).
Hypothesis train_first : train_mats args = tm :: others.

Variables lag horizon : Z.

(** The branch is the loop on the transposed first training matrix,
    followed by the trim. *)
Lemma reconstructions_unfold (fuel : nat) :
  reconstructions fuel args lag horizon
  = bind (reconstruction_loop R forecast_model fuel args (T tm) lag horizon
            (Z.of_nat steps) None 0)
      (fun output_mat_full =>
         match output_mat_full with
         | Some full =>
             lift (getitem_cols full (Some 0) (Some (Z.of_nat steps)))
         | None => lift (Raise TypeError)
         end).
Proof.
  pose proof shape_at_timesteps as Hn. revert Hn train_first.
  unfold generate_reconstructions, train_mats_of, prediction_timesteps_of.
  destruct (Args.validation args).
  - destruct (load_validation_dataset _ _) as [[ms v] im]. cbn [fst snd].
    intros -> ->. rewrite bind_lift_Ret, bind_ret.
    cbn [subscript nth_error]. rewrite bind_lift_Ret. reflexivity.
  - destruct (load_dataset _ _) as [ms im]. cbn [fst snd].
    intros -> ->. rewrite bind_lift_Ret, bind_ret.
    cbn [subscript nth_error]. rewrite bind_lift_Ret. reflexivity.
Qed.

Hypothesis model_ok : returns_requested_length R forecast_model.
Hypothesis horizon_pos : 0 < horizon.

Local Abbreviation win := (window R (T tm) lag horizon).
Local Abbreviation seed_len := (window_rows rows lag horizon 0).
Local Abbreviation calls :=
  (rollout_calls (Z.of_nat seed_len) horizon (Z.of_nat steps)).
Local Abbreviation acc :=
  (accumulator R forecast_model args (T tm) lag horizon).
Local Abbreviation trimmed :=
  (slice_cols (acc calls) (Some 0) (Some (Z.of_nat steps))).

Lemma shape_win (q : Z) :
  shape (win q) = [window_rows rows lag horizon q; channels].
Proof. apply (shape_window R (T tm) lag horizon _ _ shape_T_tm). Qed.

(** Row [t] of the window of step [q] is row [q * horizon + t] of the
    history, as long as the step starts inside the history. *)
Lemma item_win (q : Z) (t c : nat) :
  0 <= q * horizon <= Z.of_nat rows ->
  item (win q) [t; c] = item tm [c; (Z.to_nat (q * horizon) + t)%nat].
Proof.
  intros Hq. unfold window. rewrite item_slice_rows, shape_T_tm.
  cbn [hd slice_indices fst T item rev app].
  rewrite clamp_index_inside by lia. reflexivity.
Qed.

(** The branch raises in its first pass when [squeeze] turns the seed
    window into a vector. *)
Lemma reconstructions_thin (fuel : nat) :
  seed_len = 1%nat \/ channels = 1%nat ->
  reconstructions (S fuel) args lag horizon
  = ([ForecastModel (win 0) horizon], Raise ValueError).
Proof.
  intros Hthin. rewrite reconstructions_unfold.
  rewrite (loop_thin_seed R forecast_model args (T tm) lag horizon
             (Z.of_nat steps) rows channels shape_T_tm seed_len
             (shape_win 0) fuel Hthin).
  reflexivity.
Qed.

Hypothesis seed_thick : seed_len <> 1%nat.
Hypothesis channels_thick : channels <> 1%nat.

Lemma acc_long_enough :
  Z.of_nat steps
  <= Z.of_nat (seed_len + calls * Z.to_nat horizon).
Proof. apply calls_reach, horizon_pos. Qed.

Lemma shape_acc (k : nat) :
  (1 <= k)%nat ->
  shape (acc k) = [channels; (seed_len + k * Z.to_nat horizon)%nat].
Proof.
  apply (shape_accumulator R forecast_model args (T tm) lag horizon
           rows channels model_ok shape_T_tm horizon_pos seed_len
           (shape_win 0) seed_thick channels_thick).
Qed.

Lemma calls_pos : (1 <= calls)%nat.
Proof. apply rollout_calls_pos. Qed.

(** With fuel for one more test than there are passes, the branch
    returns the accumulator cut to [steps] timesteps. *)
Lemma reconstructions_run (fuel : nat) :
  (calls < fuel)%nat ->
  reconstructions fuel args lag horizon
  = (map (fun q => ForecastModel (win q) horizon) (consecutive 0 calls),
     Ret trimmed).
Proof.
  intros Hfuel. rewrite reconstructions_unfold.
  rewrite (loop_from_start R forecast_model args (T tm) lag horizon
             (Z.of_nat steps) rows channels model_ok shape_T_tm
             horizon_pos seed_len (shape_win 0) seed_thick channels_thick
             fuel Hfuel).
  rewrite bind_run.
  rewrite (getitem_cols_2d _ _ _ _ _ (shape_acc calls calls_pos)).
  cbn [lift fst snd]. rewrite app_nil_r. reflexivity.
Qed.

Lemma shape_trimmed : shape trimmed = [channels; steps].
Proof.
  rewrite shape_slice_cols, (shape_acc calls calls_pos).
  cbn [hd tl slice_indices snd].
  pose proof acc_long_enough as Hlong.
  rewrite !clamp_index_inside by lia. do 2 f_equal. lia.
Qed.

Lemma item_trimmed (c t : nat) :
  item trimmed [c; t] = item (acc calls) [c; t].
Proof.
  rewrite item_slice_cols, (shape_acc calls calls_pos).
  cbn [hd tl slice_indices fst].
  rewrite clamp_index_inside by lia. reflexivity.
Qed.

End Reconstruction.

(** ** The forecast branch *)

Section Forecast.

Hypothesis source_tm : source args = Some tm.

Variable lag : Z.

Local Abbreviation seed := (last_rows R (T tm) lag).

Lemma forecasts_unfold :
  forecasts args lag
  = (let n_out := if int_in (Args.pair_id args) [8; 9]
                  then Z.of_nat steps - lag else Z.of_nat steps in
     bind (call_forecast_model R forecast_model args seed n_out)
       (fun output_mat =>
          bind (if int_in (Args.pair_id args) [8; 9]
                then lift (torch_cat seed output_mat)
                else ret output_mat)
            (fun output_mat => ret (T output_mat)))).
Proof.
  pose proof shape_at_timesteps as Hn. revert Hn source_tm.
  unfold generate_forecasts, seed_source, init_mat_of, train_mats_of,
    prediction_timesteps_of.
  destruct (Args.validation args).
  - destruct (load_validation_dataset _ _) as [[ms v] im]. cbn [fst snd].
    destruct (int_in (Args.pair_id args) [8; 9]).
    + intros -> [= ->]. rewrite bind_lift_Ret, bind_ret.
      rewrite (getitem_rows_2d _ _ _ _ _ shape_T_tm), bind_lift_Ret.
      reflexivity.
    + destruct ms as [|m ms]; [discriminate |]. intros -> [= ->].
      cbn [subscript nth_error].
      rewrite !bind_lift_Ret, bind_ret.
      rewrite (getitem_rows_2d _ _ _ _ _ shape_T_tm), bind_lift_Ret.
      reflexivity.
  - destruct (load_dataset _ _) as [ms im]. cbn [fst snd].
    destruct (int_in (Args.pair_id args) [8; 9]).
    + intros -> [= ->]. rewrite bind_lift_Ret, bind_ret.
      rewrite (getitem_rows_2d _ _ _ _ _ shape_T_tm), bind_lift_Ret.
      reflexivity.
    + destruct ms as [|m ms]; [discriminate |]. intros -> [= ->].
      cbn [subscript nth_error].
      rewrite !bind_lift_Ret, bind_ret.
      rewrite (getitem_rows_2d _ _ _ _ _ shape_T_tm), bind_lift_Ret.
      reflexivity.
Qed.

Lemma shape_seed :
  shape seed = [last_rows_count rows lag; channels].
Proof.
  unfold last_rows. rewrite shape_slice_rows, shape_T_tm. reflexivity.
Qed.

(** Row [t] of the seed window is row [rows - lag + t] of the
    history. *)
Lemma item_seed (t c : nat) :
  0 < lag ->
  item seed [t; c]
  = item tm [c; (rows - Nat.min rows (Z.to_nat lag) + t)%nat].
Proof.
  intros Hlag. unfold last_rows. rewrite item_slice_rows, shape_T_tm.
  cbn [hd slice_indices fst T item rev app]. unfold clamp_index.
  destruct (Z.ltb_spec (- lag) 0); [| lia].
  do 3 f_equal. lia.
Qed.

(** Outside the pair ids 8 and 9: one call, and the answer of the model
    is the output. *)
Lemma forecasts_plain :
  int_in (Args.pair_id args) [8; 9] = false ->
  forecasts args lag
  = ([ForecastModel seed (Z.of_nat steps)],
     Ret (T (forecast_model args seed (Z.of_nat steps)))).
Proof.
  intros Hpid. rewrite forecasts_unfold, Hpid. cbn zeta.
  rewrite bind_call, !bind_ret. reflexivity.
Qed.

(** For the pair ids 8 and 9: one call for [steps - lag] timesteps, and
    the seed window is put in front of the answer. *)
Lemma forecasts_initial_condition :
  returns_requested_length R forecast_model ->
  int_in (Args.pair_id args) [8; 9] = true ->
  lag <= Z.of_nat steps ->
  forecasts args lag
  = ([ForecastModel seed (Z.of_nat steps - lag)],
     Ret (T (join 0 seed
               (forecast_model args seed (Z.of_nat steps - lag))))).
Proof.
  intros Hmodel Hpid Hlag. rewrite forecasts_unfold, Hpid. cbn zeta.
  rewrite bind_call.
  rewrite (torch_cat_rows _ _ _ _ _ shape_seed
             (Hmodel args _ (Z.of_nat steps - lag) _ _ shape_seed
                ltac:(lia))).
  rewrite bind_lift_Ret. reflexivity.
Qed.

End Forecast.

(** ** [main] *)

Section Main.

Local Abbreviation run_main :=
  (main R load_dataset load_validation_dataset get_prediction_timesteps
     get_validation_prediction_timesteps forecast_model).

Variable experiment_configs : Config.t.
Variable fuel : nat.

Variables lag label horizon : Z.
Variable more : list Z.

Hypothesis named :
  str_in (Config._name_ (Config.dataset experiment_configs))
    ["ODE_Lorenz"; "PDE_KS"; "KS_Official"; "Lorenz_Official"]%string
  = true.
Hypothesis sized :
  Config.size (Config.dataset experiment_configs)
  = lag :: label :: horizon :: more.

(** For one of the four datasets, [main] runs the branch the pair id
    selects, on the lag and the horizon found in the size entry of the
    dataset, and saves what the branch returns. *)
Lemma main_unfold :
  run_main fuel args experiment_configs
  = bind (if int_in (Args.pair_id args) [2; 4]
          then reconstructions fuel args lag horizon
          else forecasts args lag)
      (fun output_mat =>
         bind (emit Mkdir)
           (fun _ => emit (TorchSave output_mat (Args.batch_id args)))).
Proof.
  unfold main. rewrite named, sized. cbn [subscript nth_error].
  rewrite !bind_lift_Ret. reflexivity.
Qed.

Lemma main_returns (t : list (event R)) (output_mat : ndarray R) :
  (if int_in (Args.pair_id args) [2; 4]
   then reconstructions fuel args lag horizon
   else forecasts args lag) = (t, Ret output_mat) ->
  run_main fuel args experiment_configs
  = (t ++ [Mkdir; TorchSave output_mat (Args.batch_id args)], Ret tt).
Proof. intros H. rewrite main_unfold, H. reflexivity. Qed.

End Main.

End BranchFacts.

Section TraceFacts.

Context {R : Type}.

Lemma model_calls_app (t1 t2 : list (event R)) :
  model_calls (t1 ++ t2) = model_calls t1 ++ model_calls t2.
Proof.
  induction t1 as [|e t1 IH]; [reflexivity |].
  destruct e; simpl; rewrite IH; reflexivity.
Qed.

Lemma saved_app (t1 t2 : list (event R)) :
  saved (t1 ++ t2) = saved t1 ++ saved t2.
Proof.
  induction t1 as [|e t1 IH]; [reflexivity |].
  destruct e; simpl; rewrite IH; reflexivity.
Qed.

Lemma model_calls_map {A : Type} (w : A -> ndarray R) (n : A -> Z)
  (l : list A) :
  model_calls (map (fun q => ForecastModel (w q) (n q)) l)
  = map (fun q => (w q, n q)) l.
Proof.
  induction l as [|q l IH]; [reflexivity |]. simpl. rewrite IH. reflexivity.
Qed.

Lemma saved_map {A : Type} (w : A -> ndarray R) (n : A -> Z) (l : list A) :
  saved (map (fun q => ForecastModel (w q) (n q)) l) = [].
Proof. induction l as [|q l IH]; [reflexivity | exact IH]. Qed.

End TraceFacts.

(** The example model keeps to the interface. *)
Lemma example_model_ok : returns_requested_length Z Example.model.
Proof.
  intros a w n l c Hw Hn. unfold Example.model. cbn [shape].
  rewrite Hw. reflexivity.
Qed.

(* ================================================================== *)
(** * The properties of the rollout *)
(* ================================================================== *)

Section Properties.

Variable R : Type.
Variable load_dataset : string -> Z -> list (ndarray R) * ndarray R.
Variable load_validation_dataset :
  string -> Z -> list (ndarray R) * ndarray R * ndarray R.
Variable get_prediction_timesteps : string -> Z -> ndarray R.
Variable get_validation_prediction_timesteps : string -> Z -> ndarray R.
Variable forecast_model : Args.t -> ndarray R -> Z -> ndarray R.

Local Abbreviation reconstructions :=
  (generate_reconstructions R load_dataset load_validation_dataset
     get_prediction_timesteps get_validation_prediction_timesteps
     forecast_model).
Local Abbreviation forecasts :=
  (generate_forecasts R load_dataset load_validation_dataset
     get_prediction_timesteps get_validation_prediction_timesteps
     forecast_model).
Local Abbreviation run_main :=
  (main R load_dataset load_validation_dataset get_prediction_timesteps
     get_validation_prediction_timesteps forecast_model).
Local Abbreviation train_mats :=
  (train_mats_of R load_dataset load_validation_dataset).
Local Abbreviation source :=
  (seed_source R load_dataset load_validation_dataset).
Local Abbreviation timesteps :=
  (prediction_timesteps_of R get_prediction_timesteps
     get_validation_prediction_timesteps).
Local Abbreviation model_ok := (returns_requested_length R forecast_model).

(** The reconstruction branch whenever the seed window survives
    [squeeze]: the run, the shape of the output and its content.  The seed
    window has [window_rows rows lag horizon 0] rows, which is [lag] when
    the history is long enough. *)
Lemma reconstructions_spec (args : Args.t) (tm : ndarray R)
  (others : list (ndarray R)) (channels rows steps : nat)
  (lag horizon : Z) (fuel : nat) :
  model_ok ->
  train_mats args = tm :: others ->
  shape tm = [channels; rows] ->
  shape (timesteps args) = [steps] ->
  1 <= horizon ->
  window_rows rows lag horizon 0 <> 1%nat ->
  channels <> 1%nat ->
  let seed_len := window_rows rows lag horizon 0 in
  let k := rollout_calls (Z.of_nat seed_len) horizon (Z.of_nat steps) in
  let full := accumulator R forecast_model args (T tm) lag horizon k in
  let output_mat := slice_cols full (Some 0) (Some (Z.of_nat steps)) in
  (k < fuel)%nat ->
  reconstructions fuel args lag horizon
  = (map (fun q => ForecastModel (window R (T tm) lag horizon q) horizon)
       (consecutive 0 k), Ret output_mat) /\
  shape full = [channels; (seed_len + k * Z.to_nat horizon)%nat] /\
  shape output_mat = [channels; steps] /\
  (forall c t, item output_mat [c; t] = item full [c; t]) /\
  (forall c t, (t < seed_len)%nat ->
     item full [c; t] = item (window R (T tm) lag horizon 0) [t; c]).
Proof.
  intros Hmodel Htrain Htm Hsteps Hh Hthick Hch seed_len k full output_mat
    Hfuel.
  assert (Hpos : 0 < horizon) by lia.
  pose proof (shape_win R tm rows channels Htm lag horizon 0) as Hwin.
  repeat split.
  - apply (reconstructions_run R load_dataset load_validation_dataset
             get_prediction_timesteps get_validation_prediction_timesteps
             forecast_model args tm rows channels steps Htm Hsteps
             others Htrain lag horizon Hmodel Hpos Hthick Hch fuel Hfuel).
  - apply (shape_acc R forecast_model args tm rows channels Htm lag
             horizon Hmodel Hpos Hthick Hch k (rollout_calls_pos _ _ _)).
  - apply (shape_trimmed R get_prediction_timesteps
             get_validation_prediction_timesteps forecast_model args tm
             rows channels steps Htm Hsteps lag horizon Hmodel Hpos
             Hthick Hch).
  - apply (item_trimmed R forecast_model args tm rows channels steps Htm
             lag horizon Hmodel Hpos Hthick Hch).
  - apply (item_accumulator_seed R forecast_model args (T tm) lag horizon
             rows channels Hmodel (shape_T_tm R tm rows channels Htm)
             Hpos _ Hwin Hthick Hch k).
Qed.

(** The same when the seed window lies inside the history: it has [lag]
    rows. *)
Lemma reconstructions_inside (args : Args.t) (tm : ndarray R)
  (others : list (ndarray R)) (channels rows steps : nat)
  (lag horizon : Z) (fuel : nat) :
  model_ok ->
  train_mats args = tm :: others ->
  shape tm = [channels; rows] ->
  shape (timesteps args) = [steps] ->
  0 <= lag <= Z.of_nat rows -> lag <> 1 ->
  1 <= horizon ->
  channels <> 1%nat ->
  let k := rollout_calls lag horizon (Z.of_nat steps) in
  let full := accumulator R forecast_model args (T tm) lag horizon k in
  let output_mat := slice_cols full (Some 0) (Some (Z.of_nat steps)) in
  (k < fuel)%nat ->
  reconstructions fuel args lag horizon
  = (map (fun q => ForecastModel (window R (T tm) lag horizon q) horizon)
       (consecutive 0 k), Ret output_mat) /\
  shape (window R (T tm) lag horizon 0) = [Z.to_nat lag; channels] /\
  shape full = [channels; (Z.to_nat lag + k * Z.to_nat horizon)%nat] /\
  shape output_mat = [channels; steps] /\
  (forall c t, item output_mat [c; t] = item full [c; t]) /\
  (forall c t, (t < Z.to_nat lag)%nat ->
     item full [c; t] = item (window R (T tm) lag horizon 0) [t; c]).
Proof.
  intros Hmodel Htrain Htm Hsteps Hlag Hlag1 Hh Hch k full output_mat Hfuel.
  assert (Hseed : window_rows rows lag horizon 0 = Z.to_nat lag)
    by (apply window_rows_inside; lia).
  pose proof (reconstructions_spec args tm others channels rows steps lag
                horizon fuel Hmodel Htrain Htm Hsteps Hh) as Hspec.
  pose proof (shape_win R tm rows channels Htm lag horizon 0) as Hwin.
  cbv zeta in Hspec.
  rewrite Hseed in Hspec, Hwin. rewrite Z2Nat.id in Hspec by lia.
  destruct (Hspec ltac:(lia) Hch Hfuel)
    as (Hrun & Hfull & Hout & Hitem & Hprefix).
  repeat split; assumption.
Qed.

(** C1 (amended).  With a lag of at least two, a horizon of at least one,
    a history of at least [lag] rows and a number of channels other than
    one, the reconstruction branch returns: its output has exactly [steps]
    timesteps (and [channels] rows, being channel-major), and every
    timestep [t] below both [steps] and [lag] is row [t] of the seed
    window, untransformed.  When [lag <= steps] the first [lag] timesteps
    are therefore the seed window. *)
Theorem reconstruction_length_and_seed (args : Args.t) (tm : ndarray R)
  (others : list (ndarray R)) (channels rows steps : nat)
  (lag horizon : Z) (fuel : nat) :
  model_ok ->
  train_mats args = tm :: others ->
  shape tm = [channels; rows] ->
  shape (timesteps args) = [steps] ->
  2 <= lag <= Z.of_nat rows ->
  1 <= horizon ->
  channels <> 1%nat ->
  (rollout_calls lag horizon (Z.of_nat steps) < fuel)%nat ->
  exists output_mat : ndarray R,
    result (reconstructions fuel args lag horizon) = Ret output_mat /\
    shape output_mat = [channels; steps] /\
    (forall c t, (t < steps)%nat -> (t < Z.to_nat lag)%nat ->
       item output_mat [c; t]
       = item (window R (T tm) lag horizon 0) [t; c]) /\
    (lag <= Z.of_nat steps ->
     starts_with_window R output_mat (window R (T tm) lag horizon 0)).
Proof.
  intros Hmodel Htrain Htm Hsteps Hlag Hh Hch Hfuel.
  destruct (reconstructions_inside args tm others channels rows steps lag
              horizon fuel Hmodel Htrain Htm Hsteps ltac:(lia) ltac:(lia)
              Hh Hch Hfuel)
    as (Hrun & Hwin & Hfull & Hout & Hitem & Hprefix).
  eexists. split; [rewrite Hrun; reflexivity |].
  split; [exact Hout |].
  split.
  - intros c t _ Ht. rewrite Hitem. apply Hprefix, Ht.
  - intros Hle. unfold starts_with_window. rewrite Hwin, Hout.
    cbn [hd nth]. split; [lia |].
    intros c t Ht. rewrite Hitem. apply Hprefix, Ht.
Qed.

(** C2 (amended).  With a horizon of at least one, a lag of zero or of at
    least two that the history covers, a number of channels other than one
    and a model that answers with as many rows as it is asked for, the loop
    of the reconstruction branch terminates, and the Forecast Model is
    called [max 1 (ceil ((steps - lag) / horizon))] times: the seed window
    counts towards the length the loop waits for. *)
Theorem reconstruction_terminates_and_calls (args : Args.t)
  (tm : ndarray R) (others : list (ndarray R)) (channels rows steps : nat)
  (lag horizon : Z) (fuel : nat) :
  model_ok ->
  train_mats args = tm :: others ->
  shape tm = [channels; rows] ->
  shape (timesteps args) = [steps] ->
  0 <= lag <= Z.of_nat rows -> lag <> 1 ->
  1 <= horizon ->
  channels <> 1%nat ->
  (rollout_calls lag horizon (Z.of_nat steps) < fuel)%nat ->
  (exists output_mat : ndarray R,
     result (reconstructions fuel args lag horizon) = Ret output_mat) /\
  List.length (model_calls (trace (reconstructions fuel args lag horizon)))
  = Z.to_nat (Z.max 1 (ceil_div (Z.of_nat steps - lag) horizon)).
Proof.
  intros Hmodel Htrain Htm Hsteps Hlag Hlag1 Hh Hch Hfuel.
  destruct (reconstructions_inside args tm others channels rows steps lag
              horizon fuel Hmodel Htrain Htm Hsteps Hlag Hlag1 Hh Hch Hfuel)
    as (Hrun & _).
  rewrite Hrun. split; [eexists; reflexivity |].
  cbn [trace fst]. rewrite model_calls_map, length_map, consecutive_length.
  reflexivity.
Qed.

(** In every run of the reconstruction branch, finished or not, the calls
    of the model are on the windows of the history at the steps 0, 1,
    2, ... *)
Lemma reconstructions_calls_are_windows (args : Args.t) (tm : ndarray R)
  (others : list (ndarray R)) (lag horizon : Z) (fuel : nat) :
  train_mats args = tm :: others ->
  exists k : nat,
    model_calls (trace (reconstructions fuel args lag horizon))
    = map (fun q => (window R (T tm) lag horizon q, horizon))
        (consecutive 0 k).
Proof.
  unfold generate_reconstructions, train_mats_of.
  assert (Hloop : forall (n : Z),
    exists k : nat,
      model_calls
        (trace (bind (reconstruction_loop R forecast_model fuel args (T tm)
                        lag horizon n None 0)
                  (fun output_mat_full =>
                     match output_mat_full with
                     | Some full =>
                         lift (getitem_cols full (Some 0) (Some n))
                     | None => lift (Raise TypeError)
                     end)))
      = map (fun q => (window R (T tm) lag horizon q, horizon))
          (consecutive 0 k)).
  { intros n.
    destruct (loop_calls_are_windows R forecast_model args (T tm) lag
                horizon n fuel None 0) as [k Hk].
    exists k. rewrite trace_bind_silent, Hk by (intros [f|]; reflexivity).
    apply model_calls_map. }
  destruct (Args.validation args).
  - destruct (load_validation_dataset _ _) as [[ms v] im]. cbn [fst].
    intros ->. destruct (shape_at _ 0) as [n | e |];
      try (exists 0%nat; reflexivity).
    rewrite bind_lift_Ret, bind_ret. cbn [subscript nth_error].
    rewrite bind_lift_Ret. apply Hloop.
  - destruct (load_dataset _ _) as [ms im]. cbn [fst].
    intros ->. destruct (shape_at _ 0) as [n | e |];
      try (exists 0%nat; reflexivity).
    rewrite bind_lift_Ret, bind_ret. cbn [subscript nth_error].
    rewrite bind_lift_Ret. apply Hloop.
Qed.

(** C4.  In the reconstruction branch the model is called, at step [i],
    on the slice [i * horizon : i * horizon + lag] of the history and on
    nothing else; this holds in every run, whatever the model answers.
    In a run with a history long enough for every step, each of these
    windows has [lag] rows, row [t] of the window of step [i] being row
    [i * horizon + t] of the history. *)
Theorem reconstruction_windows_from_history (args : Args.t)
  (tm : ndarray R) (others : list (ndarray R)) (channels rows steps : nat)
  (lag horizon : Z) (fuel : nat) :
  model_ok ->
  train_mats args = tm :: others ->
  shape tm = [channels; rows] ->
  shape (timesteps args) = [steps] ->
  0 <= lag -> lag <> 1 ->
  1 <= horizon ->
  channels <> 1%nat ->
  let k := rollout_calls lag horizon (Z.of_nat steps) in
  Z.of_nat (k - 1) * horizon + lag <= Z.of_nat rows ->
  (k < fuel)%nat ->
  (forall fuel' : nat, exists k' : nat,
     model_calls (trace (reconstructions fuel' args lag horizon))
     = map (fun q => (window R (T tm) lag horizon q, horizon))
         (consecutive 0 k')) /\
  model_calls (trace (reconstructions fuel args lag horizon))
  = map (fun q => (window R (T tm) lag horizon q, horizon))
      (consecutive 0 k) /\
  (forall i : nat, (i < k)%nat ->
     shape (window R (T tm) lag horizon (Z.of_nat i))
     = [Z.to_nat lag; channels] /\
     forall t c : nat, (t < Z.to_nat lag)%nat ->
       item (window R (T tm) lag horizon (Z.of_nat i)) [t; c]
       = item tm [c; (i * Z.to_nat horizon + t)%nat]).
Proof.
  intros Hmodel Htrain Htm Hsteps Hlag Hlag1 Hh Hch k Hlong Hfuel.
  split; [| split].
  - intros fuel'.
    apply (reconstructions_calls_are_windows args tm others lag horizon
             fuel' Htrain).
  - destruct (reconstructions_inside args tm others channels rows steps lag
                horizon fuel Hmodel Htrain Htm Hsteps ltac:(nia) Hlag1 Hh
                Hch Hfuel) as (Hrun & _).
    rewrite Hrun. cbn [trace fst]. apply model_calls_map.
  - intros i Hi.
    assert (Hstep : 0 <= Z.of_nat i * horizon
                    /\ Z.of_nat i * horizon + lag <= Z.of_nat rows)
      by nia.
    split.
    + rewrite (shape_win R tm rows channels Htm lag horizon (Z.of_nat i)).
      rewrite window_rows_inside by lia. reflexivity.
    + intros t c Ht.
      rewrite (item_win R tm rows channels Htm lag horizon (Z.of_nat i) t c)
        by lia.
      do 3 f_equal. nia.
Qed.


(** C6 (amended).  A history too short for the windows is no error for
    the engine.  The window of step [q] holds the rows of
    [q * horizon : q * horizon + lag] that exist, fewer than [lag] and
    possibly none, and is handed to the model as it is, without padding;
    with a model that answers every window, the branch returns its
    [steps] timesteps. *)
Theorem short_history_windows_are_clipped (args : Args.t)
  (tm : ndarray R) (others : list (ndarray R)) (channels rows steps : nat)
  (lag horizon : Z) (fuel : nat) :
  model_ok ->
  train_mats args = tm :: others ->
  shape tm = [channels; rows] ->
  shape (timesteps args) = [steps] ->
  0 <= lag ->
  1 <= horizon ->
  Nat.min rows (Z.to_nat lag) <> 1%nat ->
  channels <> 1%nat ->
  let k := rollout_calls (Z.of_nat (Nat.min rows (Z.to_nat lag))) horizon
             (Z.of_nat steps) in
  (k < fuel)%nat ->
  exists output_mat : ndarray R,
    reconstructions fuel args lag horizon
    = (map (fun q => ForecastModel (window R (T tm) lag horizon q) horizon)
         (consecutive 0 k), Ret output_mat) /\
    shape output_mat = [channels; steps] /\
    forall q : Z, 0 <= q ->
      shape (window R (T tm) lag horizon q)
      = [(Nat.min rows (Z.to_nat (q * horizon + lag))
          - Nat.min rows (Z.to_nat (q * horizon)))%nat; channels].
Proof.
  intros Hmodel Htrain Htm Hsteps Hlag Hh Hthick Hch k Hfuel.
  assert (Hseed : window_rows rows lag horizon 0
                  = Nat.min rows (Z.to_nat lag)).
  { rewrite window_rows_clipped by lia. cbn [Z.mul Z.add Z.to_nat].
    lia. }
  pose proof (reconstructions_spec args tm others channels rows steps lag
                horizon fuel Hmodel Htrain Htm Hsteps Hh) as Hspec.
  cbv zeta in Hspec. rewrite Hseed in Hspec.
  destruct (Hspec Hthick Hch Hfuel) as (Hrun & _ & Hout & _).
  eexists. split; [exact Hrun |]. split; [exact Hout |].
  intros q Hq.
  rewrite (shape_win R tm rows channels Htm lag horizon q).
  rewrite window_rows_clipped by nia. reflexivity.
Qed.

(** ** The forecast branch and the choice of the branch *)

Lemma pair_id_2_4_not_8_9 (pair_id : Z) :
  int_in pair_id [2; 4] = true -> int_in pair_id [8; 9] = false.
Proof.
  unfold int_in. cbn [existsb].
  destruct (Z.eqb_spec pair_id 2), (Z.eqb_spec pair_id 4),
    (Z.eqb_spec pair_id 8), (Z.eqb_spec pair_id 9);
    cbn; intros; try reflexivity; try discriminate; lia.
Qed.

Lemma source_train (args : Args.t) (tm : ndarray R) :
  int_in (Args.pair_id args) [8; 9] = false ->
  source args = Some tm ->
  exists others, train_mats args = tm :: others.
Proof.
  unfold seed_source. intros ->.
  destruct (train_mats args) as [|m others]; [discriminate |].
  intros [= ->]. exists others. reflexivity.
Qed.

Lemma train_source (args : Args.t) (tm : ndarray R)
  (others : list (ndarray R)) :
  int_in (Args.pair_id args) [8; 9] = false ->
  train_mats args = tm :: others ->
  source args = Some tm.
Proof. unfold seed_source. intros -> ->. reflexivity. Qed.

(** C3 (amended).  The forecast branch calls the model once, on the seed
    window, for [n] timesteps, where [n] is the number of prediction
    timesteps, less [lag] for the pair ids 8 and 9; the horizon plays no
    part.  The matrix it returns is channel-major: [channels] rows and [n]
    columns, one per timestep, or, for the pair ids 8 and 9, [n + lag]
    columns the first [lag] of which are the rows of the seed window. *)
Theorem forecast_single_call (args : Args.t) (tm : ndarray R)
  (channels rows steps : nat) (lag : Z) :
  model_ok ->
  source args = Some tm ->
  shape tm = [channels; rows] ->
  shape (timesteps args) = [steps] ->
  (int_in (Args.pair_id args) [8; 9] = true ->
   1 <= lag <= Z.of_nat rows /\ lag <= Z.of_nat steps) ->
  let initial_condition := int_in (Args.pair_id args) [8; 9] in
  let n := if initial_condition then Z.of_nat steps - lag
           else Z.of_nat steps in
  let seed := last_rows R (T tm) lag in
  exists output_mat : ndarray R,
    forecasts args lag = ([ForecastModel seed n], Ret output_mat) /\
    if initial_condition
    then shape output_mat = [channels; (Z.to_nat n + Z.to_nat lag)%nat] /\
         shape seed = [Z.to_nat lag; channels] /\
         starts_with_window R output_mat seed
    else shape output_mat = [channels; Z.to_nat n].
Proof.
  intros Hmodel Hsource Htm Hsteps Hic initial_condition n seed.
  pose proof (shape_seed R tm rows channels Htm lag) as Hseed.
  subst initial_condition n seed.
  destruct (int_in (Args.pair_id args) [8; 9]) eqn:Hpid.
  - destruct (Hic eq_refl) as [Hlag Hn].
    rewrite last_rows_count_inside in Hseed by lia.
    pose proof (Hmodel args _ (Z.of_nat steps - lag) _ _ Hseed ltac:(lia))
      as Hout.
    assert (Hshape :
      shape (T (join 0 (last_rows R (T tm) lag)
                  (forecast_model args (last_rows R (T tm) lag)
                     (Z.of_nat steps - lag))))
      = [channels; (Z.to_nat (Z.of_nat steps - lag) + Z.to_nat lag)%nat]).
    { cbn [T shape]. rewrite (shape_join_rows _ _ _ _ Hseed), Hout.
      cbn [nth rev app]. do 2 f_equal. lia. }
    eexists. split.
    + eapply forecasts_initial_condition; eauto.
    + split; [exact Hshape |]. split; [exact Hseed |].
      unfold starts_with_window. rewrite Hshape, Hseed. cbn [hd nth].
      split; [lia |].
      intros c t Ht. cbn [T item rev app].
      apply (item_join_rows_left _ _ _ _ _ _ Hseed Ht).
  - eexists. split.
    + eapply forecasts_plain; eauto.
    + cbn [T shape].
      rewrite (Hmodel args _ (Z.of_nat steps) _ _ Hseed) by lia.
      reflexivity.
Qed.

(** C7.  For a pair id outside 2, 4, 8 and 9 (and one of the four
    datasets), [main] makes one call of the model, on the last [lag] rows
    of the first training matrix (all of them if there are fewer), asking
    for as many timesteps as there are prediction timesteps, and saves the
    answer of the model, transposed, with nothing put in front. *)
Theorem unmapped_pair_id_plain_forecast (args : Args.t)
  (experiment_configs : Config.t) (fuel : nat) (tm : ndarray R)
  (others : list (ndarray R)) (channels rows steps : nat)
  (lag label horizon : Z) (more : list Z) :
  str_in (Config._name_ (Config.dataset experiment_configs))
    rollout_datasets = true ->
  Config.size (Config.dataset experiment_configs)
  = lag :: label :: horizon :: more ->
  int_in (Args.pair_id args) [2; 4] = false ->
  int_in (Args.pair_id args) [8; 9] = false ->
  train_mats args = tm :: others ->
  shape tm = [channels; rows] ->
  shape (timesteps args) = [steps] ->
  1 <= lag ->
  let seed := last_rows R (T tm) lag in
  run_main fuel args experiment_configs
  = ([ForecastModel seed (Z.of_nat steps);
      Mkdir;
      TorchSave (T (forecast_model args seed (Z.of_nat steps)))
        (Args.batch_id args)], Ret tt) /\
  shape seed = [Nat.min rows (Z.to_nat lag); channels] /\
  (forall t c : nat,
     item seed [t; c]
     = item tm [c; (rows - Nat.min rows (Z.to_nat lag) + t)%nat]).
Proof.
  intros Hname Hsize Hrec Hic Htrain Htm Hsteps Hlag seed.
  pose proof (train_source args tm others Hic Htrain) as Hsource.
  split; [| split].
  - erewrite main_returns;
      [| exact Hname | exact Hsize
       | rewrite Hrec; eapply forecasts_plain; eauto].
    reflexivity.
  - subst seed. rewrite (shape_seed R tm rows channels Htm lag).
    rewrite last_rows_count_clipped by lia. reflexivity.
  - intros t c. apply (item_seed R tm rows channels Htm lag t c). lia.
Qed.

(** ** [main], branch by branch *)

Section MainRuns.

Variable args : Args.t.
Variable experiment_configs : Config.t.
Variable fuel : nat.
Variable tm : ndarray R.
Variables channels rows steps : nat.
Variables lag label horizon : Z.
Variable more : list Z.

Hypothesis named :
  str_in (Config._name_ (Config.dataset experiment_configs))
    rollout_datasets = true.
Hypothesis sized :
  Config.size (Config.dataset experiment_configs)
  = lag :: label :: horizon :: more.
Hypothesis source_tm : source args = Some tm.
Hypothesis tm_shape : shape tm = [channels; rows].
Hypothesis timesteps_shape : shape (timesteps args) = [steps].

Local Abbreviation seed := (last_rows R (T tm) lag).
Local Abbreviation batch := (Args.batch_id args).

Lemma main_reconstruction :
  model_ok ->
  int_in (Args.pair_id args) [2; 4] = true ->
  0 <= lag <= Z.of_nat rows -> lag <> 1 ->
  1 <= horizon ->
  channels <> 1%nat ->
  let k := rollout_calls lag horizon (Z.of_nat steps) in
  (k < fuel)%nat ->
  exists output_mat : ndarray R,
    run_main fuel args experiment_configs
    = (map (fun q => ForecastModel (window R (T tm) lag horizon q) horizon)
         (consecutive 0 k)
       ++ [Mkdir; TorchSave output_mat batch], Ret tt) /\
    shape output_mat = [channels; steps].
Proof.
  intros Hmodel Hrec Hlag Hlag1 Hh Hch k Hfuel.
  destruct (source_train args tm (pair_id_2_4_not_8_9 _ Hrec) source_tm)
    as [others Htrain].
  destruct (reconstructions_inside args tm others channels rows steps lag
              horizon fuel Hmodel Htrain tm_shape timesteps_shape Hlag
              Hlag1 Hh Hch Hfuel)
    as (Hrun & _ & _ & Hout & _).
  eexists. split; [| exact Hout].
  eapply main_returns; [exact named | exact sized |].
  rewrite Hrec. exact Hrun.
Qed.

Lemma main_plain :
  int_in (Args.pair_id args) [2; 4] = false ->
  int_in (Args.pair_id args) [8; 9] = false ->
  run_main fuel args experiment_configs
  = ([ForecastModel seed (Z.of_nat steps); Mkdir;
      TorchSave (T (forecast_model args seed (Z.of_nat steps))) batch],
     Ret tt).
Proof.
  intros Hrec Hic.
  erewrite main_returns;
    [| exact named | exact sized
     | rewrite Hrec; eapply forecasts_plain; eauto].
  reflexivity.
Qed.

Lemma main_initial_condition :
  model_ok ->
  int_in (Args.pair_id args) [2; 4] = false ->
  int_in (Args.pair_id args) [8; 9] = true ->
  lag <= Z.of_nat steps ->
  run_main fuel args experiment_configs
  = ([ForecastModel seed (Z.of_nat steps - lag); Mkdir;
      TorchSave
        (T (join 0 seed (forecast_model args seed (Z.of_nat steps - lag))))
        batch],
     Ret tt).
Proof.
  intros Hmodel Hrec Hic Hlag.
  erewrite main_returns;
    [| exact named | exact sized
     | rewrite Hrec; eapply forecasts_initial_condition; eauto].
  reflexivity.
Qed.

(** The calls of the model in a run of [main]: they are written with the
    lag and the horizon of the size entry of the dataset, and with
    nothing else of [args] than the loaders see. *)
Lemma main_model_calls :
  model_ok ->
  (int_in (Args.pair_id args) [2; 4] = true ->
   0 <= lag <= Z.of_nat rows /\ lag <> 1 /\ 1 <= horizon /\
   channels <> 1%nat /\
   (rollout_calls lag horizon (Z.of_nat steps) < fuel)%nat) ->
  (int_in (Args.pair_id args) [2; 4] = false ->
   int_in (Args.pair_id args) [8; 9] = true -> lag <= Z.of_nat steps) ->
  model_calls (trace (run_main fuel args experiment_configs))
  = if int_in (Args.pair_id args) [2; 4]
    then map (fun q => (window R (T tm) lag horizon q, horizon))
           (consecutive 0 (rollout_calls lag horizon (Z.of_nat steps)))
    else [(seed, if int_in (Args.pair_id args) [8; 9]
                 then Z.of_nat steps - lag else Z.of_nat steps)].
Proof.
  intros Hmodel Hrec Hic.
  destruct (int_in (Args.pair_id args) [2; 4]) eqn:Hpid.
  - destruct (Hrec eq_refl) as (Hlag & Hlag1 & Hh & Hch & Hfuel).
    destruct (main_reconstruction Hmodel Hpid Hlag Hlag1 Hh Hch Hfuel)
      as (output_mat & Hrun & _).
    rewrite Hrun. cbn [trace fst].
    rewrite model_calls_app, model_calls_map. cbn [model_calls].
    apply app_nil_r.
  - destruct (int_in (Args.pair_id args) [8; 9]) eqn:Hpid'.
    + rewrite (main_initial_condition Hmodel Hpid Hpid'
                 (Hic eq_refl eq_refl)).
      reflexivity.
    + rewrite (main_plain Hpid Hpid'). reflexivity.
Qed.

End MainRuns.

(** C8 (amended).  What [main] hands to [torch.save] is channel-major:
    [channels] rows and as many columns as there are prediction
    timesteps, one column per timestep.  It is saved once, under the
    batch id. *)
Theorem saved_matrix_channel_major (args : Args.t)
  (experiment_configs : Config.t) (fuel : nat) (tm : ndarray R)
  (channels rows steps : nat) (lag label horizon : Z) (more : list Z) :
  str_in (Config._name_ (Config.dataset experiment_configs))
    rollout_datasets = true ->
  Config.size (Config.dataset experiment_configs)
  = lag :: label :: horizon :: more ->
  model_ok ->
  source args = Some tm ->
  shape tm = [channels; rows] ->
  shape (timesteps args) = [steps] ->
  (int_in (Args.pair_id args) [2; 4] = true ->
   0 <= lag <= Z.of_nat rows /\ lag <> 1 /\ 1 <= horizon /\
   channels <> 1%nat /\
   (rollout_calls lag horizon (Z.of_nat steps) < fuel)%nat) ->
  (int_in (Args.pair_id args) [2; 4] = false ->
   int_in (Args.pair_id args) [8; 9] = true ->
   1 <= lag <= Z.of_nat rows /\ lag <= Z.of_nat steps) ->
  exists output_mat : ndarray R,
    result (run_main fuel args experiment_configs) = Ret tt /\
    saved (trace (run_main fuel args experiment_configs))
    = [(output_mat, Args.batch_id args)] /\
    shape output_mat = [channels; steps].
Proof.
  intros Hname Hsize Hmodel Hsource Htm Hsteps Hrec Hic.
  pose proof (shape_seed R tm rows channels Htm lag) as Hseed.
  destruct (int_in (Args.pair_id args) [2; 4]) eqn:Hpid.
  - destruct (Hrec eq_refl) as (Hlag & Hlag1 & Hh & Hch & Hfuel).
    destruct (main_reconstruction args experiment_configs fuel tm channels
                rows steps lag label horizon more Hname Hsize Hsource Htm
                Hsteps Hmodel Hpid Hlag Hlag1 Hh Hch Hfuel)
      as (output_mat & Hrun & Hout).
    exists output_mat. rewrite Hrun. cbn [result trace fst snd].
    rewrite saved_app, saved_map. repeat split. exact Hout.
  - destruct (int_in (Args.pair_id args) [8; 9]) eqn:Hpid'.
    + destruct (Hic eq_refl eq_refl) as [Hlag Hn].
      rewrite (main_initial_condition args experiment_configs fuel tm
                 channels rows steps lag label horizon more Hname Hsize
                 Hsource Htm Hsteps Hmodel Hpid Hpid' Hn).
      eexists. repeat split. cbn [T shape].
      rewrite last_rows_count_inside in Hseed by lia.
      rewrite (shape_join_rows _ _ _ _ Hseed).
      rewrite (Hmodel args _ (Z.of_nat steps - lag) _ _ Hseed) by lia.
      cbn [nth rev app]. do 2 f_equal. lia.
    + rewrite (main_plain args experiment_configs fuel tm channels rows
                 steps lag label horizon more Hname Hsize Hsource Htm
                 Hsteps Hpid Hpid').
      eexists. repeat split. cbn [T shape].
      rewrite (Hmodel args _ (Z.of_nat steps) _ _ Hseed) by lia.
      cbn [rev app]. do 2 f_equal. lia.
Qed.

(** C9.  The lag and the horizon of the rollout are the first and the
    third entry of the size of the dataset.  The windows of the
    reconstruction loop start [horizon] rows apart and have [lag] rows,
    each call asks for [horizon] timesteps, the seed window of the
    forecast branch has [lag] rows, and for the pair ids 8 and 9 the
    saved matrix begins with these [lag] rows.  The lag and the horizon
    the network was configured with ([args.lag], [args.horizon]) may be
    anything: changing them changes no call. *)
Theorem rollout_uses_dataset_size (args : Args.t)
  (experiment_configs : Config.t) (fuel : nat) (tm : ndarray R)
  (channels rows steps : nat) (lag label horizon : Z) (more : list Z) :
  str_in (Config._name_ (Config.dataset experiment_configs))
    rollout_datasets = true ->
  Config.size (Config.dataset experiment_configs)
  = lag :: label :: horizon :: more ->
  model_ok ->
  source args = Some tm ->
  shape tm = [channels; rows] ->
  shape (timesteps args) = [steps] ->
  1 <= lag <= Z.of_nat rows ->
  let k := rollout_calls lag horizon (Z.of_nat steps) in
  (int_in (Args.pair_id args) [2; 4] = true ->
   lag <> 1 /\ 1 <= horizon /\ channels <> 1%nat /\
   Z.of_nat (k - 1) * horizon + lag <= Z.of_nat rows /\ (k < fuel)%nat) ->
  (int_in (Args.pair_id args) [2; 4] = false ->
   int_in (Args.pair_id args) [8; 9] = true -> lag <= Z.of_nat steps) ->
  (if int_in (Args.pair_id args) [2; 4]
   then
     model_calls (trace (run_main fuel args experiment_configs))
     = map (fun q => (window R (T tm) lag horizon q, horizon))
         (consecutive 0 k) /\
     (forall i : nat, (i < k)%nat ->
        shape (window R (T tm) lag horizon (Z.of_nat i))
        = [Z.to_nat lag; channels])
   else
     (exists n : Z,
        model_calls (trace (run_main fuel args experiment_configs))
        = [(last_rows R (T tm) lag, n)]) /\
     shape (last_rows R (T tm) lag) = [Z.to_nat lag; channels] /\
     (int_in (Args.pair_id args) [8; 9] = true ->
      exists output_mat : ndarray R,
        saved (trace (run_main fuel args experiment_configs))
        = [(output_mat, Args.batch_id args)] /\
        starts_with_window R output_mat (last_rows R (T tm) lag))) /\
  (forall lag' horizon' : Z,
     model_calls
       (trace (run_main fuel (with_model_lag args lag' horizon')
                 experiment_configs))
     = model_calls (trace (run_main fuel args experiment_configs))).
Proof.
  intros Hname Hsize Hmodel Hsource Htm Hsteps Hlag k Hrec Hic.
  assert (Hrec' : int_in (Args.pair_id args) [2; 4] = true ->
            0 <= lag <= Z.of_nat rows /\ lag <> 1 /\ 1 <= horizon /\
            channels <> 1%nat /\
            (rollout_calls lag horizon (Z.of_nat steps) < fuel)%nat).
  { intros Hpid. destruct (Hrec Hpid) as (H1 & H2 & H3 & _ & H5).
    repeat split; try assumption; lia. }
  pose proof (main_model_calls args experiment_configs fuel tm channels
                rows steps lag label horizon more Hname Hsize Hsource Htm
                Hsteps Hmodel Hrec' Hic) as Hcalls.
  split.
  - pose proof (shape_seed R tm rows channels Htm lag) as Hseed.
    rewrite last_rows_count_inside in Hseed by lia.
    destruct (int_in (Args.pair_id args) [2; 4]) eqn:Hpid.
    + split; [exact Hcalls |].
      intros i Hi. destruct (Hrec eq_refl) as (_ & Hh & _ & Hlong & _).
      rewrite (shape_win R tm rows channels Htm lag horizon (Z.of_nat i)).
      rewrite window_rows_inside by nia. reflexivity.
    + split; [eexists; exact Hcalls |]. split; [exact Hseed |].
      intros Hpid'.
      rewrite (main_initial_condition args experiment_configs fuel tm
                 channels rows steps lag label horizon more Hname Hsize
                 Hsource Htm Hsteps Hmodel Hpid Hpid' (Hic eq_refl Hpid')).
      eexists. split; [reflexivity |].
      unfold starts_with_window. cbn [T shape item].
      rewrite (shape_join_rows _ _ _ _ Hseed), Hseed.
      cbn [hd rev app nth]. split; [lia |].
      intros c t Ht. apply (item_join_rows_left _ _ _ _ _ _ Hseed Ht).
  - intros lag' horizon'. rewrite Hcalls.
    apply (main_model_calls (with_model_lag args lag' horizon')
             experiment_configs fuel tm channels rows steps lag label
             horizon more Hname Hsize Hsource Htm Hsteps Hmodel Hrec' Hic).
Qed.

(** C10.  For a dataset that is not one of the four names, [main] does
    nothing after training: no call of the model, no directory, no file,
    whatever the pair id and the validation flag. *)
Theorem other_dataset_nothing_done (args : Args.t)
  (experiment_configs : Config.t) (fuel : nat) :
  str_in (Config._name_ (Config.dataset experiment_configs))
    rollout_datasets = false ->
  run_main fuel args experiment_configs = ([], Ret tt).
Proof.
  intros Hname. unfold main. unfold rollout_datasets in Hname.
  rewrite Hname. reflexivity.
Qed.

End Properties.

(* ================================================================== *)
(** * The properties at given sizes *)
(* ================================================================== *)

(** Lag 10, horizon 5, 12 timesteps wanted, 50 rows of history on 4
    channels: the output has 12 timesteps and begins with the seed
    window. *)
Lemma reconstruction_length_and_seed_witness :
  exists output_mat : ndarray Z,
    result (Example.reconstructions 4 50 12 5 10 5) = Ret output_mat /\
    shape output_mat = [4; 12]%nat /\
    (forall c t, (t < 12)%nat -> (t < Z.to_nat 10)%nat ->
       item output_mat [c; t]
       = item (window Z (T (Example.history 4 50)) 10 5 0) [t; c]) /\
    (10 <= Z.of_nat 12 ->
     starts_with_window Z output_mat
       (window Z (T (Example.history 4 50)) 10 5 0)).
Proof.
  apply (reconstruction_length_and_seed Z (Example.load_dataset 4 50)
           (Example.load_validation_dataset 4 50)
           (Example.get_prediction_timesteps 12)
           (Example.get_prediction_timesteps 12) Example.model
           (Example.args 2) (Example.history 4 50) [] 4 50 12 10 5 5).
  - exact example_model_ok.
  - reflexivity.
  - reflexivity.
  - reflexivity.
  - lia.
  - lia.
  - lia.
  - vm_compute. lia.
Defined.

(** C1, as stated, fails.  Lag 3, horizon 2 and 2 timesteps wanted, on 10
    rows of history, are a valid configuration; the output has 2 timesteps,
    fewer than the 3 rows of the seed window, so that its first [lag]
    timesteps are not the seed window. *)
Lemma reconstruction_shorter_than_seed :
  exists output_mat : ndarray Z,
    result (Example.reconstructions 3 10 2 5 3 2) = Ret output_mat /\
    shape output_mat = [3; 2]%nat /\
    shape (window Z (T (Example.history 3 10)) 3 2 0) = [3; 3]%nat /\
    ~ starts_with_window Z output_mat
        (window Z (T (Example.history 3 10)) 3 2 0).
Proof.
  eexists. split; [reflexivity |].
  split; [reflexivity |]. split; [reflexivity |].
  intros [Hlen _]. vm_compute in Hlen. lia.
Qed.

(** A lag of one is a valid configuration too, and there the branch raises
    in its first pass. *)
Lemma reconstruction_raises_for_unit_lag :
  Example.reconstructions 4 50 12 5 1 5
  = ([ForecastModel (window Z (T (Example.history 4 50)) 1 5 0) 5],
     Raise ValueError).
Proof.
  apply (reconstructions_thin Z (Example.load_dataset 4 50)
           (Example.load_validation_dataset 4 50)
           (Example.get_prediction_timesteps 12)
           (Example.get_prediction_timesteps 12) Example.model
           (Example.args 2) (Example.history 4 50) 50 4 12
           eq_refl eq_refl [] eq_refl 1 5 4).
  left. reflexivity.
Qed.

(** Lag 10, horizon 5, 27 timesteps wanted: four calls,
    [ceil ((27 - 10) / 5)]. *)
Lemma reconstruction_terminates_and_calls_witness :
  (exists output_mat : ndarray Z,
     result (Example.reconstructions 4 50 27 5 10 5) = Ret output_mat) /\
  List.length (model_calls (trace (Example.reconstructions 4 50 27 5 10 5)))
  = 4%nat.
Proof.
  apply (reconstruction_terminates_and_calls Z (Example.load_dataset 4 50)
           (Example.load_validation_dataset 4 50)
           (Example.get_prediction_timesteps 27)
           (Example.get_prediction_timesteps 27) Example.model
           (Example.args 2) (Example.history 4 50) [] 4 50 27 10 5 5).
  - exact example_model_ok.
  - reflexivity.
  - reflexivity.
  - reflexivity.
  - lia.
  - lia.
  - lia.
  - lia.
  - vm_compute. lia.
Defined.

(** C2, as stated, fails.  At lag 10, horizon 5 and 12 timesteps wanted (the
    scenario of the specification) the loop is left after one call, the seed
    window and the first answer making 15 timesteps already;
    [ceil (12 / 5)] is 3. *)
Lemma reconstruction_calls_not_ceil :
  (exists output_mat : ndarray Z,
     result (Example.reconstructions 4 50 12 5 10 5) = Ret output_mat) /\
  List.length (model_calls (trace (Example.reconstructions 4 50 12 5 10 5)))
  = 1%nat /\
  ceil_div 12 5 = 3.
Proof.
  split; [eexists; reflexivity |]. split; reflexivity.
Qed.

(** Lag 10, horizon 5, 27 timesteps wanted, 50 rows of history: four
    calls, on the rows 0-9, 5-14, 10-19 and 15-24. *)
Lemma reconstruction_windows_from_history_witness :
  (forall fuel' : nat, exists k' : nat,
     model_calls (trace (Example.reconstructions 4 50 27 fuel' 10 5))
     = map (fun q => (window Z (T (Example.history 4 50)) 10 5 q, 5))
         (consecutive 0 k')) /\
  model_calls (trace (Example.reconstructions 4 50 27 5 10 5))
  = map (fun q => (window Z (T (Example.history 4 50)) 10 5 q, 5))
      (consecutive 0 4) /\
  (forall i : nat, (i < 4)%nat ->
     shape (window Z (T (Example.history 4 50)) 10 5 (Z.of_nat i))
     = [10; 4]%nat /\
     forall t c : nat, (t < 10)%nat ->
       item (window Z (T (Example.history 4 50)) 10 5 (Z.of_nat i)) [t; c]
       = item (Example.history 4 50) [c; (i * 5 + t)%nat]).
Proof.
  apply (reconstruction_windows_from_history Z (Example.load_dataset 4 50)
           (Example.load_validation_dataset 4 50)
           (Example.get_prediction_timesteps 27)
           (Example.get_prediction_timesteps 27) Example.model
           (Example.args 2) (Example.history 4 50) [] 4 50 27 10 5 5).
  - exact example_model_ok.
  - reflexivity.
  - reflexivity.
  - reflexivity.
  - lia.
  - lia.
  - lia.
  - lia.
  - vm_compute. discriminate.
  - vm_compute. lia.
Defined.



(** The trim reaches into the seed window when fewer timesteps are wanted
    than the lag: of 15 timesteps, 3 are kept. *)
Lemma trim_cuts_seed_when_short :
  exists full : ndarray Z,
    result (Example.loop 4 50 5 10 5 3) = Ret (Some full) /\
    shape full = [4; 15]%nat /\
    shape (slice_cols full (Some 0) (Some 3)) = [4; 3]%nat.
Proof. eexists. split; [reflexivity |]. split; reflexivity. Qed.

(** A history of 3 rows, lag 2, horizon 2, 6 timesteps wanted: the second
    window asks for the rows 2 and 3 and gets row 2 alone. *)
Lemma short_history_windows_are_clipped_witness :
  exists output_mat : ndarray Z,
    Example.reconstructions 3 3 6 5 2 2
    = (map (fun q => ForecastModel (window Z (T (Example.history 3 3)) 2 2 q) 2)
         (consecutive 0 2), Ret output_mat) /\
    shape output_mat = [3; 6]%nat /\
    forall q : Z, 0 <= q ->
      shape (window Z (T (Example.history 3 3)) 2 2 q)
      = [(Nat.min 3 (Z.to_nat (q * 2 + 2)) - Nat.min 3 (Z.to_nat (q * 2)))%nat;
         3%nat].
Proof.
  apply (short_history_windows_are_clipped Z (Example.load_dataset 3 3)
           (Example.load_validation_dataset 3 3)
           (Example.get_prediction_timesteps 6)
           (Example.get_prediction_timesteps 6) Example.model
           (Example.args 2) (Example.history 3 3) [] 3 3 6 2 2 5).
  - exact example_model_ok.
  - reflexivity.
  - reflexivity.
  - reflexivity.
  - lia.
  - lia.
  - vm_compute. discriminate.
  - lia.
  - vm_compute. lia.
Defined.

(** C6, as stated, fails.  With 3 rows of history, lag 2 and horizon 2, the
    window of the second step reaches past the end of the history; nothing
    is raised, the model is called on a window of one row, and the branch
    returns its 6 timesteps. *)
Lemma short_history_no_error :
  Z.of_nat 3 < 1 * 2 + 2 /\
  exists output_mat : ndarray Z,
    result (Example.reconstructions 3 3 6 5 2 2) = Ret output_mat /\
    shape output_mat = [3; 6]%nat /\
    map (fun call => shape (fst call))
      (model_calls (trace (Example.reconstructions 3 3 6 5 2 2)))
    = [[2; 3]; [1; 3]]%nat.
Proof.
  split; [reflexivity |].
  eexists. split; [reflexivity |]. split; reflexivity.
Qed.

(** Pair id 8, lag 4, 20 prediction timesteps on 3 channels: one call for
    16 timesteps; 3 rows and 20 columns, the first 4 columns being the seed
    window. *)
Lemma forecast_single_call_witness :
  exists output_mat : ndarray Z,
    Example.forecasts 3 50 20 8 4
    = ([ForecastModel (last_rows Z (T (Example.history 3 50)) 4) 16],
       Ret output_mat) /\
    (shape output_mat = [3; 20]%nat /\
     shape (last_rows Z (T (Example.history 3 50)) 4) = [4; 3]%nat /\
     starts_with_window Z output_mat
       (last_rows Z (T (Example.history 3 50)) 4)).
Proof.
  apply (forecast_single_call Z (Example.load_dataset 3 50)
           (Example.load_validation_dataset 3 50)
           (Example.get_prediction_timesteps 20)
           (Example.get_prediction_timesteps 20) Example.model
           (Example.args 8) (Example.history 3 50) 3 50 20 4).
  - exact example_model_ok.
  - reflexivity.
  - reflexivity.
  - reflexivity.
  - intros _. lia.
Defined.

(** C3, as stated, fails.  On 4 channels, with lag 4 and 3 prediction
    timesteps, the forecast branch returns, for pair id 7, a matrix of 4
    rows and 3 columns: its rows are the channels, not the 3 timesteps.
    For pair id 8, on 3 channels with 20 prediction timesteps, it returns 3
    rows and 20 columns, not 16 + 4 rows. *)
Lemma forecast_rows_are_channels :
  (exists output_mat : ndarray Z,
     Example.forecasts 4 50 3 7 4
     = ([ForecastModel (last_rows Z (T (Example.history 4 50)) 4) 3],
        Ret output_mat) /\
     shape output_mat = [4; 3]%nat) /\
  (exists output_mat : ndarray Z,
     Example.forecasts 3 50 20 8 4
     = ([ForecastModel (last_rows Z (T (Example.history 3 50)) 4) 16],
        Ret output_mat) /\
     shape output_mat = [3; 20]%nat).
Proof.
  split; eexists; (split; [reflexivity | reflexivity]).
Qed.

(** Lag 4, horizon 20 and 3 prediction timesteps, outside the pair ids 8
    and 9: one call, for 3 timesteps and not for 20. *)
Lemma forecast_shorter_than_horizon :
  Example.run 3 50 3 1 7 "PDE_KS" 4 20
  = ([ForecastModel (last_rows Z (T (Example.history 3 50)) 4) 3;
      Mkdir;
      TorchSave
        (T (Example.model (Example.args 7)
              (last_rows Z (T (Example.history 3 50)) 4) 3)) 0],
     Ret tt).
Proof. reflexivity. Qed.

(** Pair id 7 is none of 2, 4, 8, 9. *)
Lemma unmapped_pair_id_plain_forecast_witness :
  Example.run 3 50 5 1 7 "PDE_KS" 4 20
  = ([ForecastModel (last_rows Z (T (Example.history 3 50)) 4) 5;
      Mkdir;
      TorchSave
        (T (Example.model (Example.args 7)
              (last_rows Z (T (Example.history 3 50)) 4) 5)) 0],
     Ret tt) /\
  shape (last_rows Z (T (Example.history 3 50)) 4) = [4; 3]%nat /\
  (forall t c : nat,
     item (last_rows Z (T (Example.history 3 50)) 4) [t; c]
     = item (Example.history 3 50) [c; (46 + t)%nat]).
Proof.
  apply (unmapped_pair_id_plain_forecast Z (Example.load_dataset 3 50)
           (Example.load_validation_dataset 3 50)
           (Example.get_prediction_timesteps 5)
           (Example.get_prediction_timesteps 5) Example.model
           (Example.args 7) (Example.configs "PDE_KS" 4 20) 1
           (Example.history 3 50) [] 3 50 5 4 0 20 []).
  - reflexivity.
  - reflexivity.
  - reflexivity.
  - reflexivity.
  - reflexivity.
  - reflexivity.
  - reflexivity.
  - lia.
Defined.

(** Pair id 2, 4 channels, 12 prediction timesteps: the saved matrix is 4
    by 12. *)
Lemma saved_matrix_channel_major_witness :
  exists output_mat : ndarray Z,
    result (Example.run 4 50 12 5 2 "PDE_KS" 10 5) = Ret tt /\
    saved (trace (Example.run 4 50 12 5 2 "PDE_KS" 10 5))
    = [(output_mat, 0)] /\
    shape output_mat = [4; 12]%nat.
Proof.
  apply (saved_matrix_channel_major Z (Example.load_dataset 4 50)
           (Example.load_validation_dataset 4 50)
           (Example.get_prediction_timesteps 12)
           (Example.get_prediction_timesteps 12) Example.model
           (Example.args 2) (Example.configs "PDE_KS" 10 5) 5
           (Example.history 4 50) 4 50 12 10 0 5 []).
  - reflexivity.
  - reflexivity.
  - exact example_model_ok.
  - reflexivity.
  - reflexivity.
  - reflexivity.
  - intros _. repeat split; try lia. vm_compute. lia.
  - intros H. discriminate H.
Defined.

(** C8, as stated, fails.  With 3 channels and 5 prediction timesteps the
    saved matrix has 3 rows and 5 columns: its rows are the channels, and
    their number is not the number of timesteps. *)
Lemma saved_matrix_rows_are_channels :
  result (Example.run 3 50 5 1 7 "PDE_KS" 4 20) = Ret tt /\
  map (fun s => shape (fst s))
    (saved (trace (Example.run 3 50 5 1 7 "PDE_KS" 4 20)))
  = [[3; 5]]%nat /\
  map (fun s => shape (fst s))
    (saved (trace (Example.run 3 50 5 5 2 "PDE_KS" 4 20)))
  = [[3; 5]]%nat.
Proof. split; [reflexivity |]. split; reflexivity. Qed.

(** The network is configured with lag 96 and horizon 24, the dataset says
    10 and 5: the windows have 10 rows and start 5 rows apart. *)
Lemma rollout_uses_dataset_size_witness :
  (model_calls (trace (Example.run 4 50 27 5 2 "PDE_KS" 10 5))
   = map (fun q => (window Z (T (Example.history 4 50)) 10 5 q, 5))
       (consecutive 0 4) /\
   (forall i : nat, (i < 4)%nat ->
      shape (window Z (T (Example.history 4 50)) 10 5 (Z.of_nat i))
      = [10; 4]%nat)) /\
  (forall lag' horizon' : Z,
     model_calls
       (trace (main Z (Example.load_dataset 4 50)
                 (Example.load_validation_dataset 4 50)
                 (Example.get_prediction_timesteps 27)
                 (Example.get_prediction_timesteps 27) Example.model 5
                 (with_model_lag (Example.args 2) lag' horizon')
                 (Example.configs "PDE_KS" 10 5)))
     = model_calls (trace (Example.run 4 50 27 5 2 "PDE_KS" 10 5))).
Proof.
  apply (rollout_uses_dataset_size Z (Example.load_dataset 4 50)
           (Example.load_validation_dataset 4 50)
           (Example.get_prediction_timesteps 27)
           (Example.get_prediction_timesteps 27) Example.model
           (Example.args 2) (Example.configs "PDE_KS" 10 5) 5
           (Example.history 4 50) 4 50 27 10 0 5 []).
  - reflexivity.
  - reflexivity.
  - exact example_model_ok.
  - reflexivity.
  - reflexivity.
  - reflexivity.
  - lia.
  - intros _. split; [lia |]. split; [lia |]. split; [lia |].
    split; [vm_compute; discriminate | vm_compute; lia].
  - intros H. discriminate H.
Defined.

(** A dataset called "ETTh1": nothing happens, for pair id 2 as for any
    other. *)
Lemma other_dataset_nothing_done_witness :
  Example.run 4 50 12 5 2 "ETTh1" 10 5 = ([], Ret tt).
Proof.
  apply (other_dataset_nothing_done Z (Example.load_dataset 4 50)
           (Example.load_validation_dataset 4 50)
           (Example.get_prediction_timesteps 12)
           (Example.get_prediction_timesteps 12) Example.model
           (Example.args 2) (Example.configs "ETTh1" 10 5) 5).
  reflexivity.
Defined.

(* ================================================================== *)
(** * Further properties: errors, edges and content *)
(* ================================================================== *)

(** A subscript returns or raises [IndexError], nothing else. *)
Lemma subscript_cases {A : Type} (l : list A) (i : nat) :
  (exists x, subscript l i = Ret x) \/ subscript l i = Raise IndexError.
Proof.
  unfold subscript. destruct (nth_error l i) as [x|];
    [left; exists x; reflexivity | right; reflexivity].
Qed.

Section FurtherArrayFacts.

Context {R : Type}.
Implicit Types a b : ndarray R.

Lemma getitem_rows_flat a start stop :
  (ndim a < 2)%nat -> getitem_rows a start stop = Raise IndexError.
Proof.
  unfold ndim, getitem_rows.
  destruct (shape a) as [|n [|m rest]]; simpl; intros H;
    [reflexivity | reflexivity | lia].
Qed.

Lemma ndim_T a : ndim (T a) = ndim a.
Proof. unfold ndim. cbn [T shape]. apply length_rev. Qed.

Lemma item_join_rows_right a b (n c t i : nat) :
  shape a = [n; c] ->
  item (join 0 a b) [(n + t)%nat; i] = item b [t; i].
Proof.
  intros H. unfold join. simpl. rewrite H. simpl.
  destruct (Nat.ltb_spec (n + t) n); [lia |].
  do 2 f_equal. lia.
Qed.



End FurtherArrayFacts.

Section Further.

Variable R : Type.
Variable load_dataset : string -> Z -> list (ndarray R) * ndarray R.
Variable load_validation_dataset :
  string -> Z -> list (ndarray R) * ndarray R * ndarray R.
Variable get_prediction_timesteps : string -> Z -> ndarray R.
Variable get_validation_prediction_timesteps : string -> Z -> ndarray R.
Variable forecast_model : Args.t -> ndarray R -> Z -> ndarray R.

Local Abbreviation reconstructions :=
  (generate_reconstructions R load_dataset load_validation_dataset
     get_prediction_timesteps get_validation_prediction_timesteps
     forecast_model).
Local Abbreviation forecasts :=
  (generate_forecasts R load_dataset load_validation_dataset
     get_prediction_timesteps get_validation_prediction_timesteps
     forecast_model).
Local Abbreviation run_main :=
  (main R load_dataset load_validation_dataset get_prediction_timesteps
     get_validation_prediction_timesteps forecast_model).
Local Abbreviation train_mats :=
  (train_mats_of R load_dataset load_validation_dataset).
Local Abbreviation init_mat :=
  (init_mat_of R load_dataset load_validation_dataset).
Local Abbreviation source :=
  (seed_source R load_dataset load_validation_dataset).
Local Abbreviation timesteps :=
  (prediction_timesteps_of R get_prediction_timesteps
     get_validation_prediction_timesteps).
Local Abbreviation model_ok := (returns_requested_length R forecast_model).
Local Abbreviation loop := (reconstruction_loop R forecast_model).

(** The reconstruction branch in terms of what the selected loaders give:
    the number of prediction timesteps is read first, the first training
    matrix next. *)
Lemma reconstructions_normal (fuel : nat) (args : Args.t) (lag horizon : Z) :
  reconstructions fuel args lag horizon
  = bind (lift (shape_at (timesteps args) 0))
      (fun n =>
         bind (lift (subscript (train_mats args) 0))
           (fun data_mat =>
              bind (loop fuel args (T data_mat) lag horizon (Z.of_nat n)
                      None 0)
                (fun output_mat_full =>
                   match output_mat_full with
                   | Some full =>
                       lift (getitem_cols full (Some 0)
                               (Some (Z.of_nat n)))
                   | None => lift (Raise TypeError)
                   end))).
Proof.
  unfold generate_reconstructions, train_mats_of, prediction_timesteps_of.
  destruct (Args.validation args).
  - destruct (load_validation_dataset _ _) as [[ms v] im]. cbn [fst snd].
    destruct (shape_at _ 0) as [n | e |]; reflexivity.
  - destruct (load_dataset _ _) as [ms im]. cbn [fst snd].
    destruct (shape_at _ 0) as [n | e |]; reflexivity.
Qed.

(** The forecast branch in terms of what the selected loaders give.  For
    the pair ids 8 and 9 the training matrices are not read. *)
Lemma forecasts_normal (args : Args.t) (lag : Z) :
  forecasts args lag
  = if int_in (Args.pair_id args) [8; 9]
    then bind (lift (shape_at (timesteps args) 0))
           (fun n => forecast_tail R forecast_model args lag (init_mat args)
                       (Z.of_nat n - lag))
    else bind (lift (subscript (train_mats args) 0))
           (fun data_mat =>
              bind (lift (shape_at (timesteps args) 0))
                (fun n => forecast_tail R forecast_model args lag data_mat
                            (Z.of_nat n))).
Proof.
  unfold generate_forecasts, forecast_tail, train_mats_of, init_mat_of,
    prediction_timesteps_of.
  destruct (Args.validation args).
  - destruct (load_validation_dataset _ _) as [[ms v] im]. cbn [fst snd].
    destruct (int_in (Args.pair_id args) [8; 9]).
    + destruct (shape_at _ 0) as [n | e |]; reflexivity.
    + destruct (subscript ms 0) as [m | e |]; try reflexivity.
      destruct (shape_at _ 0) as [n | e |]; try reflexivity.
      rewrite !bind_lift_Ret, bind_ret. reflexivity.
  - destruct (load_dataset _ _) as [ms im]. cbn [fst snd].
    destruct (int_in (Args.pair_id args) [8; 9]).
    + destruct (shape_at _ 0) as [n | e |]; reflexivity.
    + destruct (subscript ms 0) as [m | e |]; try reflexivity.
      destruct (shape_at _ 0) as [n | e |]; try reflexivity.
      rewrite !bind_lift_Ret, bind_ret. reflexivity.
Qed.

(** ** Malformed configuration and data *)

(** X1.  A size entry with fewer than three items stops [main] with an
    [IndexError] before anything is loaded, called or written. *)
Theorem short_size_raises (args : Args.t) (experiment_configs : Config.t)
  (fuel : nat) :
  str_in (Config._name_ (Config.dataset experiment_configs))
    rollout_datasets = true ->
  (List.length (Config.size (Config.dataset experiment_configs)) < 3)%nat ->
  run_main fuel args experiment_configs = ([], Raise IndexError).
Proof.
  intros Hname Hlen. unfold main. unfold rollout_datasets in Hname.
  rewrite Hname.
  destruct (Config.size (Config.dataset experiment_configs))
    as [|a [|b [|c rest]]]; cbn [List.length] in Hlen; try lia; reflexivity.
Qed.

(** X2.  Outside the pair ids 8 and 9, an empty list of training matrices
    stops [main] with an [IndexError]: the model is not called and nothing
    is written, in the reconstruction branch as in the forecast branch. *)
Theorem no_training_matrix_raises (args : Args.t)
  (experiment_configs : Config.t) (fuel : nat) (lag label horizon : Z)
  (more : list Z) :
  str_in (Config._name_ (Config.dataset experiment_configs))
    rollout_datasets = true ->
  Config.size (Config.dataset experiment_configs)
  = lag :: label :: horizon :: more ->
  int_in (Args.pair_id args) [8; 9] = false ->
  train_mats args = [] ->
  run_main fuel args experiment_configs = ([], Raise IndexError).
Proof.
  intros Hname Hsize Hic Htrain.
  rewrite (main_unfold R load_dataset load_validation_dataset
             get_prediction_timesteps get_validation_prediction_timesteps
             forecast_model args experiment_configs fuel lag label horizon
             more Hname Hsize).
  destruct (int_in (Args.pair_id args) [2; 4]).
  - rewrite reconstructions_normal, Htrain. unfold shape_at.
    destruct (subscript_cases (shape (timesteps args)) 0) as [[n Hn] | Hn];
      rewrite Hn; reflexivity.
  - rewrite forecasts_normal, Hic, Htrain. reflexivity.
Qed.

(** X3.  A matrix with fewer than two axes where the seed is to be taken
    stops [main] with an [IndexError] at the first slice, before any call
    of the model and before anything is written. *)
Theorem flat_matrix_raises (args : Args.t) (experiment_configs : Config.t)
  (fuel : nat) (tm : ndarray R) (lag label horizon : Z) (more : list Z) :
  str_in (Config._name_ (Config.dataset experiment_configs))
    rollout_datasets = true ->
  Config.size (Config.dataset experiment_configs)
  = lag :: label :: horizon :: more ->
  source args = Some tm ->
  (ndim tm < 2)%nat ->
  run_main (S fuel) args experiment_configs = ([], Raise IndexError).
Proof.
  intros Hname Hsize Hsource Hflat.
  assert (HT : (ndim (T tm) < 2)%nat) by (rewrite ndim_T; exact Hflat).
  rewrite (main_unfold R load_dataset load_validation_dataset
             get_prediction_timesteps get_validation_prediction_timesteps
             forecast_model args experiment_configs (S fuel) lag label
             horizon more Hname Hsize).
  destruct (int_in (Args.pair_id args) [2; 4]) eqn:Hrec.
  - destruct (source_train R load_dataset load_validation_dataset args tm
                (pair_id_2_4_not_8_9 _ Hrec) Hsource) as [others Htrain].
    rewrite reconstructions_normal, Htrain. unfold shape_at.
    destruct (subscript_cases (shape (timesteps args)) 0) as [[n Hn] | Hn];
      rewrite Hn; [| reflexivity].
    cbn [subscript nth_error]. rewrite !bind_lift_Ret.
    cbn [reconstruction_loop]. rewrite bind_ret.
    rewrite (getitem_rows_flat _ _ _ HT). reflexivity.
  - rewrite forecasts_normal.
    destruct (int_in (Args.pair_id args) [8; 9]) eqn:Hic.
    + unfold seed_source in Hsource. rewrite Hic in Hsource.
      injection Hsource as Hinit. rewrite Hinit. unfold shape_at.
      destruct (subscript_cases (shape (timesteps args)) 0) as [[n Hn] | Hn];
        rewrite Hn; [| reflexivity].
      rewrite bind_lift_Ret. unfold forecast_tail.
      rewrite (getitem_rows_flat _ _ _ HT). reflexivity.
    + destruct (source_train R load_dataset load_validation_dataset args tm
                  Hic Hsource) as [others Htrain].
      rewrite Htrain. cbn [subscript nth_error]. rewrite bind_lift_Ret.
      unfold shape_at.
      destruct (subscript_cases (shape (timesteps args)) 0) as [[n Hn] | Hn];
        rewrite Hn; [| reflexivity].
      rewrite bind_lift_Ret. unfold forecast_tail.
      rewrite (getitem_rows_flat _ _ _ HT). reflexivity.
Qed.

(** X4.  In the reconstruction branch, a seed window of a single row (a lag
    of one, or a history of one row) or a dataset of a single channel makes
    [main] raise [ValueError] in the first pass: the model has been called
    once, and neither the directory nor the file is written. *)
Theorem thin_seed_raises_before_saving (args : Args.t)
  (experiment_configs : Config.t) (fuel : nat) (tm : ndarray R)
  (others : list (ndarray R)) (channels rows steps : nat)
  (lag label horizon : Z) (more : list Z) :
  str_in (Config._name_ (Config.dataset experiment_configs))
    rollout_datasets = true ->
  Config.size (Config.dataset experiment_configs)
  = lag :: label :: horizon :: more ->
  int_in (Args.pair_id args) [2; 4] = true ->
  train_mats args = tm :: others ->
  shape tm = [channels; rows] ->
  shape (timesteps args) = [steps] ->
  0 <= lag ->
  Nat.min rows (Z.to_nat lag) = 1%nat \/ channels = 1%nat ->
  run_main (S fuel) args experiment_configs
  = ([ForecastModel (window R (T tm) lag horizon 0) horizon],
     Raise ValueError).
Proof.
  intros Hname Hsize Hrec Htrain Htm Hsteps Hlag Hthin.
  rewrite (main_unfold R load_dataset load_validation_dataset
             get_prediction_timesteps get_validation_prediction_timesteps
             forecast_model args experiment_configs (S fuel) lag label
             horizon more Hname Hsize).
  rewrite Hrec.
  rewrite (reconstructions_thin R load_dataset load_validation_dataset
             get_prediction_timesteps get_validation_prediction_timesteps
             forecast_model args tm rows channels steps Htm Hsteps others
             Htrain lag horizon fuel).
  - reflexivity.
  - rewrite window_rows_clipped by lia.
    cbn [Z.mul Z.add Z.to_nat]. destruct Hthin as [H | H]; [left | right];
      lia.
Qed.

(** ** What is written, and when *)






End Further.

Section FurtherContent.

Variable R : Type.
Variable load_dataset : string -> Z -> list (ndarray R) * ndarray R.
Variable load_validation_dataset :
  string -> Z -> list (ndarray R) * ndarray R * ndarray R.
Variable get_prediction_timesteps : string -> Z -> ndarray R.
Variable get_validation_prediction_timesteps : string -> Z -> ndarray R.
Variable forecast_model : Args.t -> ndarray R -> Z -> ndarray R.

Local Abbreviation reconstructions :=
  (generate_reconstructions R load_dataset load_validation_dataset
     get_prediction_timesteps get_validation_prediction_timesteps
     forecast_model).
Local Abbreviation forecasts :=
  (generate_forecasts R load_dataset load_validation_dataset
     get_prediction_timesteps get_validation_prediction_timesteps
     forecast_model).
Local Abbreviation run_main :=
  (main R load_dataset load_validation_dataset get_prediction_timesteps
     get_validation_prediction_timesteps forecast_model).
Local Abbreviation train_mats :=
  (train_mats_of R load_dataset load_validation_dataset).
Local Abbreviation source :=
  (seed_source R load_dataset load_validation_dataset).
Local Abbreviation timesteps :=
  (prediction_timesteps_of R get_prediction_timesteps
     get_validation_prediction_timesteps).
Local Abbreviation model_ok := (returns_requested_length R forecast_model).
Local Abbreviation loop := (reconstruction_loop R forecast_model).

(** ** A horizon of zero *)

(** With a horizon of zero the accumulator does not grow: from a state
    short of [n] timesteps every unit of fuel is spent on one more call. *)
Lemma loop_stuck (args : Args.t) (data_mat : ndarray R)
  (rows channels : nat) (lag n : Z) :
  model_ok ->
  shape data_mat = [rows; channels] ->
  forall (fuel : nat) (full : ndarray R) (i : Z) (m : nat),
    0 < i -> shape full = [channels; m] -> Z.of_nat m < n ->
    loop fuel args data_mat lag 0 n (Some full) i
    = (map (fun q => ForecastModel (window R data_mat lag 0 q) 0)
         (consecutive i fuel), OutOfFuel).
Proof.
  intros Hmodel Hdata.
  induction fuel as [|fuel IH]; intros full i m Hi Hfull Hm;
    [reflexivity |].
  cbn [reconstruction_loop]. unfold shape_at. rewrite Hfull.
  cbn [subscript nth_error]. rewrite bind_lift_Ret, bind_ret.
  destruct (Z.ltb_spec (Z.of_nat m) n); [| lia].
  rewrite (getitem_rows_2d _ _ _ _ _ Hdata), bind_lift_Ret.
  fold (window R data_mat lag 0 i). rewrite bind_call.
  destruct (Z.eqb_spec i 0); [lia |].
  pose proof (shape_window R data_mat lag 0 rows channels Hdata i) as Hwin.
  pose proof (Hmodel args _ 0 _ _ Hwin ltac:(lia)) as Hout.
  assert (HT : shape (T (forecast_model args (window R data_mat lag 0 i) 0))
               = [channels; 0%nat])
    by (cbn [T shape]; rewrite Hout; reflexivity).
  rewrite (np_concatenate_cols _ _ _ _ _ Hfull HT), bind_lift_Ret.
  rewrite (IH _ (i + 1) (m + 0)%nat); [| lia | | lia].
  - rewrite consecutive_succ. reflexivity.
  - rewrite (shape_join_cols _ _ _ _ Hfull), HT. reflexivity.
Qed.

(** X7.  Take a lag of zero or of at least two that the history covers,
    a number of channels other than one and a model that answers with as
    many rows as it is asked for.  With a horizon of zero and more
    timesteps wanted than the lag, the reconstruction branch never returns:
    whatever the fuel,
    it is all spent, one call of the model per unit, every call on the same
    seed window and for zero timesteps.  Nothing guards against it. *)
Theorem zero_horizon_never_returns (args : Args.t) (tm : ndarray R)
  (others : list (ndarray R)) (channels rows steps : nat) (lag : Z) :
  model_ok ->
  train_mats args = tm :: others ->
  shape tm = [channels; rows] ->
  shape (timesteps args) = [steps] ->
  0 <= lag <= Z.of_nat rows -> lag <> 1 ->
  channels <> 1%nat ->
  lag < Z.of_nat steps ->
  forall fuel : nat,
    reconstructions fuel args lag 0
    = (map (fun q => ForecastModel (window R (T tm) lag 0 q) 0)
         (consecutive 0 fuel), OutOfFuel) /\
    (forall q : Z, window R (T tm) lag 0 q = window R (T tm) lag 0 0).
Proof.
  intros Hmodel Htrain Htm Hsteps Hlag Hlag1 Hch Hshort fuel.
  split.
  2:{ intros q. unfold window. rewrite Z.mul_0_r. reflexivity. }
  pose proof (shape_T_tm R tm rows channels Htm) as Hdata.
  rewrite (reconstructions_unfold R load_dataset load_validation_dataset
             get_prediction_timesteps get_validation_prediction_timesteps
             forecast_model args tm steps Hsteps others Htrain lag 0 fuel).
  destruct fuel as [|fuel]; [reflexivity |].
  cbn [reconstruction_loop]. rewrite bind_ret.
  rewrite (getitem_rows_2d _ _ _ _ _ Hdata), bind_lift_Ret.
  fold (window R (T tm) lag 0 0). rewrite bind_call. cbn [Z.eqb].
  pose proof (shape_window R (T tm) lag 0 rows channels Hdata 0) as Hwin.
  rewrite window_rows_inside in Hwin by lia.
  pose proof (Hmodel args _ 0 _ _ Hwin ltac:(lia)) as Hout.
  assert (HT : shape (T (forecast_model args (window R (T tm) lag 0 0) 0))
               = [channels; 0%nat])
    by (cbn [T shape]; rewrite Hout; reflexivity).
  assert (Hseed : shape (T (squeeze (window R (T tm) lag 0 0)))
                  = [channels; Z.to_nat lag]).
  { cbn [T shape].
    rewrite (shape_squeeze_2d _ _ _ Hwin ltac:(lia) Hch). reflexivity. }
  rewrite (np_concatenate_cols _ _ _ _ _ Hseed HT), bind_lift_Ret.
  rewrite (loop_stuck args (T tm) rows channels lag (Z.of_nat steps) Hmodel
             Hdata fuel _ (0 + 1) (Z.to_nat lag + 0)%nat);
    [| lia | | lia].
  - rewrite consecutive_succ. reflexivity.
  - rewrite (shape_join_cols _ _ _ _ Hseed), HT. reflexivity.
Qed.

(** ** The content of what is returned *)

(** X8.  The output of the reconstruction branch, timestep by timestep:
    timestep [t] below the lag is row [t] of the history; a later timestep
    is row [(t - lag) mod horizon] of what the model answered to the window
    of step [(t - lag) / horizon].  No timestep is repeated or skipped where
    two answers meet. *)
Theorem reconstruction_output_pointwise (args : Args.t) (tm : ndarray R)
  (others : list (ndarray R)) (channels rows steps : nat)
  (lag horizon : Z) (fuel : nat) :
  model_ok ->
  train_mats args = tm :: others ->
  shape tm = [channels; rows] ->
  shape (timesteps args) = [steps] ->
  0 <= lag <= Z.of_nat rows -> lag <> 1 ->
  1 <= horizon ->
  channels <> 1%nat ->
  (rollout_calls lag horizon (Z.of_nat steps) < fuel)%nat ->
  exists output_mat : ndarray R,
    result (reconstructions fuel args lag horizon) = Ret output_mat /\
    forall c t : nat, (t < steps)%nat ->
      item output_mat [c; t]
      = if (t <? Z.to_nat lag)%nat then item tm [c; t]
        else
          let q := ((t - Z.to_nat lag) / Z.to_nat horizon)%nat in
          let r := ((t - Z.to_nat lag) mod Z.to_nat horizon)%nat in
          item (forecast_model args
                  (window R (T tm) lag horizon (Z.of_nat q)) horizon) [r; c].
Proof.
  intros Hmodel Htrain Htm Hsteps Hlag Hlag1 Hh Hch Hfuel.
  destruct (reconstructions_inside R load_dataset load_validation_dataset
              get_prediction_timesteps get_validation_prediction_timesteps
              forecast_model args tm others channels rows steps lag horizon
              fuel Hmodel Htrain Htm Hsteps Hlag Hlag1 Hh Hch Hfuel)
    as (Hrun & Hwin & Hfull & Hout & Hitem & Hprefix).
  eexists. split; [rewrite Hrun; reflexivity |].
  intros c t Ht. rewrite Hitem.
  destruct (Nat.ltb_spec t (Z.to_nat lag)) as [Hseed | Hlate].
  - rewrite (Hprefix c t Hseed).
    rewrite (item_win R tm rows channels Htm lag horizon 0 t c) by lia.
    reflexivity.
  - set (hh := Z.to_nat horizon). set (d := (t - Z.to_nat lag)%nat).
    assert (Hhh : hh <> 0%nat) by (unfold hh; lia).
    pose proof (Nat.div_mod_eq d hh) as Hd.
    pose proof (Nat.mod_upper_bound d hh Hhh) as Hr.
    pose proof (calls_reach (Z.to_nat lag) horizon (Z.of_nat steps)
                  ltac:(lia)) as Hreach.
    rewrite Z2Nat.id in Hreach by lia. fold hh in Hreach.
    assert (Hq : (d / hh < rollout_calls lag horizon (Z.of_nat steps))%nat).
    { apply Nat.Div0.div_lt_upper_bound. unfold d. nia. }
    pose proof (shape_T_tm R tm rows channels Htm) as Hdata.
    pose proof (item_accumulator_block R forecast_model args (T tm) lag
                  horizon rows channels Hmodel Hdata ltac:(lia) _ Hwin
                  ltac:(lia) Hch _ (d / hh)%nat c (d mod hh)%nat Hq Hr)
      as Hblock.
    fold hh in Hblock.
    replace (Z.to_nat lag + d / hh * hh + d mod hh)%nat with t in Hblock
      by (unfold d in *; nia).
    rewrite Hblock. reflexivity.
Qed.

(** X9.  For the pair ids 8 and 9, what [main] saves is the last rows of
    the initial-condition matrix, [lag] of them or all if there are fewer,
    followed by the answer of the model for [steps - lag] timesteps.  A
    matrix of fewer than [lag] rows is no error: the saved matrix is then
    shorter than the number of prediction timesteps. *)
Theorem initial_condition_saved_content (args : Args.t)
  (experiment_configs : Config.t) (fuel : nat) (im : ndarray R)
  (channels rows steps : nat) (lag label horizon : Z) (more : list Z) :
  str_in (Config._name_ (Config.dataset experiment_configs))
    rollout_datasets = true ->
  Config.size (Config.dataset experiment_configs)
  = lag :: label :: horizon :: more ->
  model_ok ->
  int_in (Args.pair_id args) [2; 4] = false ->
  int_in (Args.pair_id args) [8; 9] = true ->
  source args = Some im ->
  shape im = [channels; rows] ->
  shape (timesteps args) = [steps] ->
  1 <= lag <= Z.of_nat steps ->
  let seed := last_rows R (T im) lag in
  let answer := forecast_model args seed (Z.of_nat steps - lag) in
  let kept := Nat.min rows (Z.to_nat lag) in
  exists output_mat : ndarray R,
    run_main fuel args experiment_configs
    = ([ForecastModel seed (Z.of_nat steps - lag); Mkdir;
        TorchSave output_mat (Args.batch_id args)], Ret tt) /\
    shape output_mat = [channels; (kept + (steps - Z.to_nat lag))%nat] /\
    (forall c t : nat, (t < kept)%nat ->
       item output_mat [c; t] = item im [c; (rows - kept + t)%nat]) /\
    (forall c r : nat,
       item output_mat [c; (kept + r)%nat] = item answer [r; c]).
Proof.
  intros Hname Hsize Hmodel Hrec Hic Hsource Him Hsteps Hlag seed answer kept.
  pose proof (shape_seed R im rows channels Him lag) as Hseed.
  rewrite last_rows_count_clipped in Hseed by lia. fold seed kept in Hseed.
  pose proof (Hmodel args seed (Z.of_nat steps - lag) _ _ Hseed ltac:(lia))
    as Hanswer.
  fold answer in Hanswer.
  exists (T (join 0 seed answer)). split; [| split; [| split]].
  - apply (main_initial_condition R load_dataset load_validation_dataset
             get_prediction_timesteps get_validation_prediction_timesteps
             forecast_model args experiment_configs fuel im channels rows
             steps lag label horizon more Hname Hsize Hsource Him Hsteps
             Hmodel Hrec Hic).
    lia.
  - cbn [T shape]. rewrite (shape_join_rows _ _ _ _ Hseed), Hanswer.
    cbn [nth rev app]. do 2 f_equal. lia.
  - intros c t Ht. cbn [T item rev app].
    rewrite (item_join_rows_left _ _ _ _ _ _ Hseed Ht).
    apply (item_seed R im rows channels Him lag t c). lia.
  - intros c r. cbn [T item rev app].
    apply (item_join_rows_right _ _ _ _ _ _ Hseed).
Qed.

(** X10.  With a lag of zero the forecast branch does not start from an
    empty window: the slice [-0:] is the whole matrix, so the model is
    called on the entire history, and for the pair ids 8 and 9 the entire
    initial-condition matrix is put in front of its answer. *)
Theorem zero_lag_seeds_with_whole_history (args : Args.t) (tm : ndarray R)
  (channels rows steps : nat) :
  model_ok ->
  source args = Some tm ->
  shape tm = [channels; rows] ->
  shape (timesteps args) = [steps] ->
  let seed := last_rows R (T tm) 0 in
  exists output_mat : ndarray R,
    forecasts args 0
    = ([ForecastModel seed (Z.of_nat steps)], Ret output_mat) /\
    shape seed = [rows; channels] /\
    (forall t c : nat, item seed [t; c] = item tm [c; t]) /\
    shape output_mat
    = [channels;
       if int_in (Args.pair_id args) [8; 9] then (rows + steps)%nat
       else steps].
Proof.
  intros Hmodel Hsource Htm Hsteps seed.
  assert (Hseed : shape seed = [rows; channels]).
  { unfold seed.
    rewrite (shape_seed R tm rows channels Htm 0).
    unfold last_rows_count, slice_indices. cbn [Z.opp snd].
    rewrite clamp_index_inside by lia. do 2 f_equal. lia. }
  assert (Hitem : forall t c : nat, item seed [t; c] = item tm [c; t]).
  { intros t c. unfold seed, last_rows.
    rewrite item_slice_rows, (shape_T_tm R tm rows channels Htm).
    cbn [hd slice_indices fst Z.opp T item rev app].
    rewrite clamp_index_inside by lia. reflexivity. }
  destruct (int_in (Args.pair_id args) [8; 9]) eqn:Hic.
  - pose proof (forecasts_initial_condition R load_dataset
                  load_validation_dataset get_prediction_timesteps
                  get_validation_prediction_timesteps forecast_model args tm
                  rows channels steps Htm Hsteps Hsource 0 Hmodel Hic
                  ltac:(lia)) as Hrun.
    rewrite Z.sub_0_r in Hrun. fold seed in Hrun.
    eexists. split; [exact Hrun |]. split; [exact Hseed |].
    split; [exact Hitem |].
    cbn [T shape]. rewrite (shape_join_rows _ _ _ _ Hseed).
    rewrite (Hmodel args seed (Z.of_nat steps) _ _ Hseed) by lia.
    cbn [nth rev app]. do 2 f_equal. lia.
  - pose proof (forecasts_plain R load_dataset load_validation_dataset
                  get_prediction_timesteps get_validation_prediction_timesteps
                  forecast_model args tm rows channels steps Htm Hsteps
                  Hsource 0 Hic) as Hrun.
    fold seed in Hrun.
    eexists. split; [exact Hrun |]. split; [exact Hseed |].
    split; [exact Hitem |].
    cbn [T shape].
    rewrite (Hmodel args seed (Z.of_nat steps) _ _ Hseed) by lia.
    cbn [rev app]. do 2 f_equal. lia.
Qed.

End FurtherContent.


(* ================================================================== *)
(** * The further properties at given sizes *)
(* ================================================================== *)

(** A lag of one, on 4 channels and 50 rows. *)
Lemma thin_seed_raises_before_saving_witness :
  Example.run 4 50 12 5 2 "PDE_KS" 1 5
  = ([ForecastModel (window Z (T (Example.history 4 50)) 1 5 0) 5],
     Raise ValueError).
Proof.
  apply (thin_seed_raises_before_saving Z (Example.load_dataset 4 50)
           (Example.load_validation_dataset 4 50)
           (Example.get_prediction_timesteps 12)
           (Example.get_prediction_timesteps 12) Example.model
           (Example.args 2) (Example.configs "PDE_KS" 1 5) 4
           (Example.history 4 50) [] 4 50 12 1 0 5 []).
  - reflexivity.
  - reflexivity.
  - reflexivity.
  - reflexivity.
  - reflexivity.
  - reflexivity.
  - lia.
  - left. reflexivity.
Defined.

(** A size entry of two items. *)
Lemma short_size_raises_witness :
  main Z (Example.load_dataset 4 50) (Example.load_validation_dataset 4 50)
    (Example.get_prediction_timesteps 12)
    (Example.get_prediction_timesteps 12) Example.model 5 (Example.args 2)
    (Config.mk (Config.mk_dataset "PDE_KS" [10; 0]))
  = ([], Raise IndexError).
Proof.
  apply (short_size_raises Z (Example.load_dataset 4 50)
           (Example.load_validation_dataset 4 50)
           (Example.get_prediction_timesteps 12)
           (Example.get_prediction_timesteps 12) Example.model
           (Example.args 2)
           (Config.mk (Config.mk_dataset "PDE_KS" [10; 0])) 5).
  - reflexivity.
  - simpl. lia.
Defined.

(** A loader that gives no training matrix, for pair id 2. *)
Lemma no_training_matrix_raises_witness :
  main Z (fun _ _ => ([], Example.history 4 50))
    (Example.load_validation_dataset 4 50)
    (Example.get_prediction_timesteps 12)
    (Example.get_prediction_timesteps 12) Example.model 5 (Example.args 2)
    (Example.configs "PDE_KS" 10 5)
  = ([], Raise IndexError).
Proof.
  apply (no_training_matrix_raises Z (fun _ _ => ([], Example.history 4 50))
           (Example.load_validation_dataset 4 50)
           (Example.get_prediction_timesteps 12)
           (Example.get_prediction_timesteps 12) Example.model
           (Example.args 2) (Example.configs "PDE_KS" 10 5) 5 10 0 5 []).
  - reflexivity.
  - reflexivity.
  - reflexivity.
  - reflexivity.
Defined.

(** A training matrix that is a vector of 50 items, for pair id 7. *)
Lemma flat_matrix_raises_witness :
  main Z (fun _ _ => ([Example.timestamps 50], Example.history 4 50))
    (Example.load_validation_dataset 4 50)
    (Example.get_prediction_timesteps 12)
    (Example.get_prediction_timesteps 12) Example.model 1 (Example.args 7)
    (Example.configs "PDE_KS" 10 5)
  = ([], Raise IndexError).
Proof.
  apply (flat_matrix_raises Z
           (fun _ _ => ([Example.timestamps 50], Example.history 4 50))
           (Example.load_validation_dataset 4 50)
           (Example.get_prediction_timesteps 12)
           (Example.get_prediction_timesteps 12) Example.model
           (Example.args 7) (Example.configs "PDE_KS" 10 5) 0
           (Example.timestamps 50) 10 0 5 []).
  - reflexivity.
  - reflexivity.
  - reflexivity.
  - vm_compute. lia.
Defined.

(** Lag 10, horizon 0, 12 timesteps wanted: seven units of fuel, seven
    calls, no result. *)
Lemma zero_horizon_never_returns_witness :
  Example.reconstructions 4 50 12 7 10 0
  = (map (fun q => ForecastModel (window Z (T (Example.history 4 50)) 10 0 q) 0)
       (consecutive 0 7), OutOfFuel) /\
  (forall q : Z,
     window Z (T (Example.history 4 50)) 10 0 q
     = window Z (T (Example.history 4 50)) 10 0 0).
Proof.
  apply (zero_horizon_never_returns Z (Example.load_dataset 4 50)
           (Example.load_validation_dataset 4 50)
           (Example.get_prediction_timesteps 12)
           (Example.get_prediction_timesteps 12) Example.model
           (Example.args 2) (Example.history 4 50) [] 4 50 12 10).
  - exact example_model_ok.
  - reflexivity.
  - reflexivity.
  - reflexivity.
  - lia.
  - lia.
  - lia.
  - lia.
Defined.

(** Lag 10, horizon 5, 27 timesteps: timestep 3 is row 3 of the history,
    timestep 22 is row 2 of the answer to the window of step 2. *)
Lemma reconstruction_output_pointwise_witness :
  exists output_mat : ndarray Z,
    result (Example.reconstructions 4 50 27 5 10 5) = Ret output_mat /\
    item output_mat [1; 3]%nat = item (Example.history 4 50) [1; 3]%nat /\
    item output_mat [1; 22]%nat
    = item (Example.model (Example.args 2)
              (window Z (T (Example.history 4 50)) 10 5 2) 5) [2; 1]%nat.
Proof.
  destruct (reconstruction_output_pointwise Z (Example.load_dataset 4 50)
              (Example.load_validation_dataset 4 50)
              (Example.get_prediction_timesteps 27)
              (Example.get_prediction_timesteps 27) Example.model
              (Example.args 2) (Example.history 4 50) [] 4 50 27 10 5 5)
    as (output_mat & Hrun & Hitem).
  - exact example_model_ok.
  - reflexivity.
  - reflexivity.
  - reflexivity.
  - lia.
  - lia.
  - lia.
  - lia.
  - vm_compute. lia.
  - exists output_mat. split; [exact Hrun |]. split.
    + apply (Hitem 1%nat 3%nat). lia.
    + apply (Hitem 1%nat 22%nat). lia.
Defined.

(** Pair id 8, lag 4, 20 prediction timesteps and an initial-condition
    matrix of 2 rows only: 2 + 16 = 18 timesteps are saved, not 20. *)
Lemma initial_condition_saved_content_witness :
  exists output_mat : ndarray Z,
    Example.run 3 2 20 1 8 "PDE_KS" 4 20
    = ([ForecastModel (last_rows Z (T (Example.history 3 2)) 4) 16; Mkdir;
        TorchSave output_mat 0], Ret tt) /\
    shape output_mat = [3; 18]%nat /\
    (forall c t : nat, (t < 2)%nat ->
       item output_mat [c; t] = item (Example.history 3 2) [c; (0 + t)%nat]) /\
    (forall c r : nat,
       item output_mat [c; (2 + r)%nat]
       = item (Example.model (Example.args 8)
                 (last_rows Z (T (Example.history 3 2)) 4) 16) [r; c]).
Proof.
  apply (initial_condition_saved_content Z (Example.load_dataset 3 2)
           (Example.load_validation_dataset 3 2)
           (Example.get_prediction_timesteps 20)
           (Example.get_prediction_timesteps 20) Example.model
           (Example.args 8) (Example.configs "PDE_KS" 4 20) 1
           (Example.history 3 2) 3 2 20 4 0 20 []).
  - reflexivity.
  - reflexivity.
  - exact example_model_ok.
  - reflexivity.
  - reflexivity.
  - reflexivity.
  - reflexivity.
  - reflexivity.
  - lia.
Defined.

(** Pair id 8 and a lag of zero: the 50 rows of the initial-condition
    matrix and 5 timesteps of the model make 55. *)
Lemma zero_lag_seeds_with_whole_history_witness :
  exists output_mat : ndarray Z,
    Example.forecasts 3 50 5 8 0
    = ([ForecastModel (last_rows Z (T (Example.history 3 50)) 0) 5],
       Ret output_mat) /\
    shape (last_rows Z (T (Example.history 3 50)) 0) = [50; 3]%nat /\
    (forall t c : nat,
       item (last_rows Z (T (Example.history 3 50)) 0) [t; c]
       = item (Example.history 3 50) [c; t]) /\
    shape output_mat = [3; 55]%nat.
Proof.
  apply (zero_lag_seeds_with_whole_history Z (Example.load_dataset 3 50)
           (Example.load_validation_dataset 3 50)
           (Example.get_prediction_timesteps 5)
           (Example.get_prediction_timesteps 5) Example.model
           (Example.args 8) (Example.history 3 50) 3 50 5).
  - exact example_model_ok.
  - reflexivity.
  - reflexivity.
  - reflexivity.
Defined.


